(** * Inventory management backend

    A shallow embedding of [src/storage.py] (class [StorageManager]),
    [src/logger.py] (class [LogManager]) and [src/product_manager.py]
    (class [ProductManager]), and the properties of the specification
    that concern them.

    Modelling conventions.
    - A relational table is the list of its rows in rowid order, with the
      AUTOINCREMENT counter the engine keeps for it.
    - Each SQL statement of the source is modelled by the relational
      operation its text denotes: [WHERE] as a filter, [ORDER BY] as a
      sort of the scan, [LIMIT] as a prefix, [LIKE] as the pattern
      matcher of the engine, [NOT NULL] and [UNIQUE] as checks before the
      insertion.  Rows with equal sort keys keep their scan order; no
      property below depends on that choice.
    - Python [str] and SQL [TEXT] are [String.string], holding the UTF-8
      encoding of the text, which is what the engine stores and compares.
      Equality and the substring test of Python agree with those on the
      encodings.  The engine folds the case of the letters [A-Z] only;
      Python's [str.lower] follows Unicode and is an argument of the one
      method that calls it.
    - Python [int] is [Z].  The engine holds integers in 64 bits: binding
      an [int] outside that range to a placeholder raises
      [OverflowError] before the statement runs.
    - A price is a Python number: an [int], a finite [float] with its
      exact rational value, or the [float] NaN.  The engine keeps a price
      as a double, so an [int] is rounded to 53 significant bits, and it
      reads NaN as NULL.  The infinities are left out.
    - Methods that read or write the store are computations in a state and
      exception monad over the database; wall-clock readings are explicit
      arguments of the methods that take them. *)

From Stdlib Require Import List String Ascii ZArith QArith Bool Lia.
From Stdlib Require Import Sorting.Sorted Sorting.Permutation.
From Stdlib Require Import DecimalString.
Import ListNotations.

Local Open Scope string_scope.
Local Open Scope Z_scope.

(** ** Text operations of Python and of the engine *)

Module Str.

(** The case folding of the engine's LIKE: the letters [A-Z] go to
    [a-z], every other byte is kept. *)
Definition lower_char (c : ascii) : ascii :=
  let n := nat_of_ascii c in
  if ((65 <=? n) && (n <=? 90))%nat then ascii_of_nat (n + 32) else c.

(** A text with its ASCII letters in lower case. *)
Fixpoint lower (s : string) : string :=
  match s with
  | EmptyString => EmptyString
  | String c s' => String (lower_char c) (lower s')
  end.

(** [hay.startswith(needle)] *)
Fixpoint starts_with (needle hay : string) : bool :=
  match needle, hay with
  | EmptyString, _ => true
  | String _ _, EmptyString => false
  | String a n', String b h' => Ascii.eqb a b && starts_with n' h'
  end.

(** Python's [needle in hay] on strings. *)
Fixpoint contains (needle hay : string) : bool :=
  starts_with needle hay ||
  match hay with
  | EmptyString => false
  | String _ h' => contains needle h'
  end.

Definition nul : ascii := ascii_of_nat 0.

(** The text as the LIKE operator reads it: up to its first NUL. *)
Fixpoint c_string (s : string) : string :=
  match s with
  | EmptyString => EmptyString
  | String c s' =>
      if Ascii.eqb c nul then EmptyString else String c (c_string s')
  end.

(** The first byte of a UTF-8 character of several bytes. *)
Definition lead (c : ascii) : bool := (192 <=? nat_of_ascii c)%nat.

(** A byte that continues a UTF-8 character. *)
Definition continuation (c : ascii) : bool :=
  ((128 <=? nat_of_ascii c) && (nat_of_ascii c <? 192))%nat.

Fixpoint skip_continuation (s : string) : string :=
  match s with
  | EmptyString => EmptyString
  | String c s' => if continuation c then skip_continuation s' else s
  end.

(** What is left of a text after the character that starts with the
    byte [d]. *)
Definition after_char (d : ascii) (rest : string) : string :=
  if lead d then skip_continuation rest else rest.

(** The matcher behind LIKE with no ESCAPE clause.  [%] matches any run
    of characters, [_] matches one character, every other byte matches
    itself up to the case of [A-Z].  [star] records a [%] that is still
    open: the rest of the pattern may then start anywhere in the text. *)
Fixpoint compare_pattern (star : bool) (pattern text : string) : bool :=
  match pattern with
  | EmptyString =>
      if star then true
      else match text with EmptyString => true | String _ _ => false end
  | String c p' =>
      if Ascii.eqb c "%" then compare_pattern true p' text
      else if Ascii.eqb c "_" then
        match text with
        | EmptyString => false
        | String d t' => compare_pattern star p' (after_char d t')
        end
      else if star then
        (fix scan (t : string) : bool :=
           match t with
           | EmptyString => false
           | String d t' =>
               (Ascii.eqb (lower_char c) (lower_char d)
                && compare_pattern false p' t')
               || scan t'
           end) text
      else
        match text with
        | EmptyString => false
        | String d t' =>
            Ascii.eqb (lower_char c) (lower_char d)
            && compare_pattern false p' t'
        end
  end.

(** The engine's [text LIKE pattern]. *)
Definition like (pattern text : string) : bool :=
  compare_pattern false (c_string pattern) (c_string text).

(** The longest pattern LIKE accepts, in bytes. *)
Definition like_pattern_limit : Z := 50000.

(** A term free of the LIKE metacharacters and of NUL. *)
Fixpoint plain (s : string) : bool :=
  match s with
  | EmptyString => true
  | String c s' =>
      negb (Ascii.eqb c "%") && negb (Ascii.eqb c "_")
      && negb (Ascii.eqb c nul) && plain s'
  end.

(** [t] occurs in [s]: [s = pre ++ t ++ post]. *)
Definition occurs_in (t s : string) : Prop :=
  exists pre post, s = pre ++ t ++ post.

(** [t] occurs in [s] up to the case of the letters [A-Z]. *)
Definition occurs_in_nocase (t s : string) : Prop :=
  exists pre mid post, s = pre ++ mid ++ post /\ lower mid = lower t.

(** The engine's default (BINARY) collation on text. *)
Definition text_le (a b : string) : Prop := String.leb a b = true.

End Str.

(** ** SHA-256, as computed by [hashlib.sha256] (FIPS 180-4)

    Words are 32-bit integers in [Z]; additions wrap modulo [2^32]. *)

Module SHA256.

Definition mask32 (x : Z) : Z := Z.land x 4294967295.

Definition add32 (x y : Z) : Z := mask32 (x + y).

(** Rotation of a 32-bit word to the right. *)
Definition rotr (n x : Z) : Z :=
  mask32 (Z.lor (Z.shiftr x n) (Z.shiftl x (32 - n))).

(** The six logical functions of section 4.1.2. *)
Definition Ch (x y z : Z) : Z :=
  Z.lxor (Z.land x y) (Z.land (Z.lxor x 4294967295) z).

Definition Maj (x y z : Z) : Z :=
  Z.lxor (Z.lxor (Z.land x y) (Z.land x z)) (Z.land y z).

Definition Sigma0 (x : Z) : Z :=
  Z.lxor (Z.lxor (rotr 2 x) (rotr 13 x)) (rotr 22 x).

Definition Sigma1 (x : Z) : Z :=
  Z.lxor (Z.lxor (rotr 6 x) (rotr 11 x)) (rotr 25 x).

Definition sigma0 (x : Z) : Z :=
  Z.lxor (Z.lxor (rotr 7 x) (rotr 18 x)) (Z.shiftr x 3).

Definition sigma1 (x : Z) : Z :=
  Z.lxor (Z.lxor (rotr 17 x) (rotr 19 x)) (Z.shiftr x 10).

(** The binary digits of the integer [k]-th root of [n], found from
    the top: [i] digits remain, [r] holds the digits found. *)
Fixpoint root_digits (k n : Z) (i : nat) (r : Z) : Z :=
  match i with
  | O => r
  | S j =>
      let c := r + 2 ^ Z.of_nat j in
      root_digits k n j (if c ^ k <=? n then c else r)
  end.

(** The first 32 bits of the fractional part of the [k]-th root of [p]. *)
Definition root_fraction (k p : Z) : Z :=
  mask32 (root_digits k (p * 2 ^ (32 * k)) 36 0).

Definition primes : list Z :=
  [2; 3; 5; 7; 11; 13; 17; 19; 23; 29; 31; 37; 41; 43; 47; 53;
   59; 61; 67; 71; 73; 79; 83; 89; 97; 101; 103; 107; 109; 113; 127; 131;
   137; 139; 149; 151; 157; 163; 167; 173; 179; 181; 191; 193; 197; 199;
   211; 223; 227; 229; 233; 239; 241; 251; 257; 263; 269; 271; 277; 281;
   283; 293; 307; 311].

(** The round constants: cube roots of the first sixty-four primes. *)
Definition K : list Z := Eval vm_compute in map (root_fraction 3) primes.

(** The initial hash value: square roots of the first eight primes. *)
Definition H0 : list Z :=
  Eval vm_compute in map (root_fraction 2) (firstn 8 primes).

(** Big-endian bytes of [x], [n] of them. *)
Fixpoint be_bytes (n : nat) (x : Z) : list Z :=
  match n with
  | O => []
  | S n' => Z.land (Z.shiftr x (8 * Z.of_nat n')) 255 :: be_bytes n' x
  end.

(** Padding: a one bit, zeros up to 56 modulo 64 bytes, the bit length
    of the message on eight bytes. *)
Definition pad (msg : list Z) : list Z :=
  let len := Z.of_nat (List.length msg) in
  let zeros := Z.to_nat ((55 - len) mod 64) in
  msg ++ [128] ++ repeat 0 zeros ++ be_bytes 8 (8 * len).

(** The bytes as big-endian 32-bit words. *)
Fixpoint words (fuel : nat) (bytes : list Z) : list Z :=
  match fuel, bytes with
  | S f, a :: b :: c :: d :: rest =>
      (a * 16777216 + b * 65536 + c * 256 + d) :: words f rest
  | _, _ => []
  end.

(** The words in blocks of sixteen. *)
Fixpoint chunks (fuel : nat) (ws : list Z) : list (list Z) :=
  match fuel, ws with
  | O, _ => []
  | _, [] => []
  | S f, _ => firstn 16 ws :: chunks f (skipn 16 ws)
  end.

(** The message schedule, extended by [n] words. *)
Fixpoint schedule (n : nat) (w : list Z) : list Z :=
  match n with
  | O => w
  | S n' =>
      let t := List.length w in
      let g (i : nat) := nth (t - i) w 0 in
      schedule n'
        (w ++ [add32 (add32 (sigma1 (g 2%nat)) (g 7%nat))
                     (add32 (sigma0 (g 15%nat)) (g 16%nat))])
  end.

(** One round on the working variables [a] to [h], with the round
    constant and the schedule word. *)
Definition round (s : list Z) (kw : Z * Z) : list Z :=
  match s with
  | [a; b; c; d; e; f; g; h] =>
      let t1 :=
        add32 (add32 (add32 h (Sigma1 e)) (add32 (Ch e f g) (fst kw)))
              (snd kw) in
      let t2 := add32 (Sigma0 a) (Maj a b c) in
      [add32 t1 t2; a; b; c; add32 d t1; e; f; g]
  | _ => s
  end.

Definition compress (h : list Z) (block : list Z) : list Z :=
  let w := schedule 48 block in
  let s := fold_left round (combine K w) h in
  map (fun p => add32 (fst p) (snd p)) (combine h s).

Definition digest (msg : list Z) : list Z :=
  let ws := words (List.length (pad msg)) (pad msg) in
  flat_map (be_bytes 4)
    (fold_left compress (chunks (List.length ws) ws) H0).

Definition hex_digit (n : Z) : ascii :=
  ascii_of_nat (Z.to_nat (if n <? 10 then 48 + n else 87 + n)).

Fixpoint hex (bytes : list Z) : string :=
  match bytes with
  | [] => EmptyString
  | b :: bs =>
      String (hex_digit (Z.shiftr b 4))
        (String (hex_digit (Z.land b 15)) (hex bs))
  end.

(** [s.encode()] on ASCII text. *)
Fixpoint encode (s : string) : list Z :=
  match s with
  | EmptyString => []
  | String c s' => Z.of_nat (nat_of_ascii c) :: encode s'
  end.

(** [hashlib.sha256(bytes).hexdigest()] *)
Definition hexdigest (msg : list Z) : string := hex (digest msg).

End SHA256.

(** ** The persisted schema

    One record per table of [_initialize_tables]; a column declared
    without [NOT NULL] holds an [option]. *)

Module User.
Record row := Row {
  id : Z;
  username : string;
  password_hash : string;
  role : string;
  created_at : option string
}.
End User.

Module Product.
Record row := Row {
  id : Z;
  sku : string;
  name : string;
  price : Q;
  category : option string;
  stock : Z;
  description : option string;
  created_at : option string;
  updated_at : option string
}.
End Product.

Module Supplier.
Record row := Row {
  id : Z;
  name : string;
  contact_person : option string;
  email : option string;
  phone : option string;
  address : option string;
  created_at : option string
}.
End Supplier.

Module SalesOrder.
Record row := Row {
  id : Z;
  product_id : Z;
  quantity : Z;
  total_price : Q;
  order_date : option string
}.
End SalesOrder.

Module PurchaseOrder.
Record row := Row {
  id : Z;
  product_id : Z;
  supplier_id : option Z;
  quantity : Z;
  unit_price : Q;
  total_price : Q;
  order_date : option string
}.
End PurchaseOrder.

Module Log.
Record row := Row {
  id : Z;
  user : string;
  timestamp : option string;
  action : string;
  details : option string
}.
End Log.

(** A table: its rows in scan (rowid) order and the largest rowid the
    engine has handed out for it ([sqlite_sequence]). *)
Record table (R : Type) := Table {
  rows : list R;
  sequence : Z
}.
Arguments Table {R} rows sequence.
Arguments rows {R} t.
Arguments sequence {R} t.

Record database := Database {
  users : table User.row;
  products : table Product.row;
  suppliers : table Supplier.row;
  sales_orders : table SalesOrder.row;
  purchase_orders : table PurchaseOrder.row;
  logs : table Log.row
}.

(** ** Relational operations of the engine *)

Module Engine.

Definition empty_table {R : Type} : table R := Table [] 0.

(** A database file in which every [CREATE TABLE] has just run. *)
Definition empty_database : database :=
  Database empty_table empty_table empty_table
           empty_table empty_table empty_table.

(** [INTEGER PRIMARY KEY AUTOINCREMENT]: one more than the largest
    rowid present or ever handed out. *)
Definition next_rowid (ids : list Z) (seq : Z) : Z :=
  Z.max (fold_right Z.max 0 ids) seq + 1.

(** [ORDER BY]: a stable sort of the scan. *)
Fixpoint insert_by {R : Type} (le : R -> R -> bool) (x : R) (l : list R)
  : list R :=
  match l with
  | [] => [x]
  | y :: l' => if le x y then x :: l else y :: insert_by le x l'
  end.

Definition order_by {R : Type} (le : R -> R -> bool) (l : list R)
  : list R :=
  fold_right (insert_by le) [] l.

(** [LIMIT n]: a negative [n] is no limit. *)
Definition limit {R : Type} (n : Z) (l : list R) : list R :=
  if n <? 0 then l else firstn (Z.to_nat n) l.

(** Comparison of a nullable text column: NULL sorts first. *)
Definition null_leb (a b : option string) : bool :=
  match a, b with
  | None, _ => true
  | Some _, None => false
  | Some x, Some y => String.leb x y
  end.

(** [column LIKE pattern] as a [WHERE] condition: NULL is not a match. *)
Definition null_like (pattern : string) (column : option string) : bool :=
  match column with
  | Some text => Str.like pattern text
  | None => false
  end.

End Engine.

(** ** Python values and control *)

Inductive exn :=
| ValueError (msg : string)
| IntegrityError (msg : string)
| OverflowError (msg : string)
| OperationalError (msg : string).

Inductive outcome (A : Type) :=
| Returns (a : A)
| Raises (e : exn).
Arguments Returns {A} a.
Arguments Raises {A} e.

(** A method call: from the database before the call to its outcome and
    the database after it. *)
Definition M (A : Type) : Type := database -> outcome A * database.

Definition ret {A : Type} (a : A) : M A := fun db => (Returns a, db).

Definition raise {A : Type} (e : exn) : M A := fun db => (Raises e, db).

Definition bind {A B : Type} (m : M A) (k : A -> M B) : M B :=
  fun db =>
    match m db with
    | (Returns a, db') => k a db'
    | (Raises e, db') => (Raises e, db')
    end.

Notation "x <- m ;; k" := (bind m (fun x => k))
  (at level 61, m at next level, right associativity).

(** [xs[:n]] *)
Definition slice_to {A : Type} (n : Z) (xs : list A) : list A :=
  if n <? 0 then firstn (List.length xs - Z.to_nat (- n)) xs
  else firstn (Z.to_nat n) xs.

(** [x < y] on rationals. *)
Definition Qltb (x y : Q) : bool :=
  (Qnum x * QDen y <? Qnum y * QDen x)%Z.

(** The integers the engine holds: 64 bits, two's complement. *)
Definition int64 (z : Z) : bool := (- 2 ^ 63 <=? z) && (z <? 2 ^ 63).

(** A Python number passed where a price is expected: an [int], a finite
    [float] given by its exact value, or the [float] NaN. *)
Inductive number :=
| Whole (z : Z)
| Floating (q : Q)
| NaN.

Module Number.

(** [x < 0]; every comparison with NaN is false. *)
Definition lt0 (x : number) : bool :=
  match x with
  | Whole z => z <? 0
  | Floating q => Qltb q 0
  | NaN => false
  end.

(** The double nearest to an integer, ties to the even mantissa: the
    conversion the engine applies to an integer kept in a REAL column. *)
Definition round53 (z : Z) : Z :=
  let a := Z.abs z in
  let k := Z.log2 a - 52 in
  if k <=? 0 then z
  else
    let unit := 2 ^ k in
    let m := a / unit in
    let rest := a mod unit in
    let half := 2 ^ (k - 1) in
    let m' :=
      if (half <? rest) || ((rest =? half) && Z.odd m) then m + 1 else m in
    Z.sgn z * (m' * unit).

(** What a REAL column keeps of a number bound to it; NaN is taken as
    NULL. *)
Definition stored (x : number) : option Q :=
  match x with
  | Whole z => Some (inject_Z (round53 z))
  | Floating q => Some q
  | NaN => None
  end.

(** The value of a number that the engine takes and a double holds
    without rounding: any finite [float], and an [int] within 64 bits
    that has at most 53 significant bits. *)
Definition exact (x : number) : option Q :=
  match x with
  | Whole z =>
      if int64 z && (round53 z =? z) then Some (inject_Z z) else None
  | Floating q => Some q
  | NaN => None
  end.

End Number.

(** A value bound to a [?] placeholder of a statement. *)
Inductive param :=
| Num (x : number)
| Text (s : string).

(** Whether the driver can hand the value to the engine. *)
Definition binds (p : param) : bool :=
  match p with
  | Num (Whole z) => int64 z
  | Num _ => true
  | Text _ => true
  end.

(** The two clocks a call reads: the engine's [CURRENT_TIMESTAMP] and
    Python's [datetime.now().isoformat()]. *)
Record clock := Clock {
  current_timestamp : string;
  datetime_now : string
}.

(** The values held by the dictionaries that [execute_query] builds
    from the rows of the log: [None], integers and text. *)
Inductive value :=
| PyNone
| PyInt (z : Z)
| PyStr (s : string).

(** [str(v)], which is how an f-string renders [v]. *)
Definition str (v : value) : string :=
  match v with
  | PyNone => "None"
  | PyInt z => NilZero.string_of_int (Z.to_int z)
  | PyStr s => s
  end.

(** The truth value of [v] in a condition. *)
Definition truthy (v : value) : bool :=
  match v with
  | PyNone => false
  | PyInt z => negb (z =? 0)
  | PyStr s => negb (s =? "")%string
  end.

(** A dictionary with text keys, as the list of its items. *)
Definition dict : Type := list (string * value).

(** [d.get(key, default)] *)
Fixpoint dict_get (d : dict) (key : string) (default : value) : value :=
  match d with
  | [] => default
  | (k, v) :: d' => if (k =? key)%string then v else dict_get d' key default
  end.

(** [key in d] *)
Definition has_key (d : dict) (key : string) : bool :=
  existsb (fun kv => fst kv =? key)%string d.

(** A nullable text column as a Python value. *)
Definition of_nullable (column : option string) : value :=
  match column with
  | Some text => PyStr text
  | None => PyNone
  end.

Definition newline : string := String (ascii_of_nat 10) "".

(** [s * n] on text. *)
Fixpoint times (s : string) (n : nat) : string :=
  match n with
  | O => ""
  | S n' => s ++ times s n'
  end.

(** What [print(s)] writes to the standard output. *)
Definition print (s : string) : string := s ++ newline.


(** ** The SQL statements of [storage.py]

    Each statement takes the values bound to its [?] placeholders. *)

Module SQL.

(** A reading statement fails with an exception or yields the rows of
    [cursor.fetchall()]. *)
Definition query (R : Type) : Type := database -> exn + list R.

(** A writing statement fails with an exception or yields
    [cursor.lastrowid] and the database after the commit. *)
Definition statement : Type := database -> exn + (Z * database).

Definition set_users (t : table User.row) (db : database) : database :=
  Database t (products db) (suppliers db) (sales_orders db)
           (purchase_orders db) (logs db).

Definition set_products (t : table Product.row) (db : database)
  : database :=
  Database (users db) t (suppliers db) (sales_orders db)
           (purchase_orders db) (logs db).

Definition set_logs (t : table Log.row) (db : database) : database :=
  Database (users db) (products db) (suppliers db) (sales_orders db)
           (purchase_orders db) t.

(** [SELECT COUNT( * ) as count FROM users] *)
Definition count_users (db : database) : Z :=
  Z.of_nat (List.length (rows (users db))).

(** [INSERT INTO users (username, password_hash, role) VALUES (?, ?, ?)];
    [username] is [UNIQUE], [created_at] takes its default. *)
Definition insert_user (username password_hash role : string)
  (now : string) : statement :=
  fun db =>
    let t := users db in
    if existsb (fun r => User.username r =? username)%string (rows t)
    then inl (IntegrityError "UNIQUE constraint failed: users.username")
    else
      let id := Engine.next_rowid (map User.id (rows t)) (sequence t) in
      let r := User.Row id username password_hash role (Some now) in
      inr (id, set_users (Table (rows t ++ [r]) id) db).

(** [INSERT INTO products (sku, name, price, category, stock,
    description) VALUES (?, ?, ?, ?, ?, ?)]; [price] is [REAL NOT NULL],
    [sku] is [UNIQUE], [created_at] and [updated_at] take their default.
    The engine checks [NOT NULL] before [UNIQUE]. *)
Definition insert_product (sku name : string) (price : number)
  (category : string) (stock : Z) (description : string)
  (now : string) : statement :=
  fun db =>
    let t := products db in
    match Number.stored price with
    | None =>
        inl (IntegrityError "NOT NULL constraint failed: products.price")
    | Some real =>
        if existsb (fun r => Product.sku r =? sku)%string (rows t)
        then inl (IntegrityError "UNIQUE constraint failed: products.sku")
        else
          let id :=
            Engine.next_rowid (map Product.id (rows t)) (sequence t) in
          let r := Product.Row id sku name real (Some category) stock
                               (Some description) (Some now) (Some now) in
          inr (id, set_products (Table (rows t ++ [r]) id) db)
    end.

(** [INSERT INTO logs (user, timestamp, action, details)
    VALUES (?, ?, ?, ?)] *)
Definition insert_log (user timestamp action details : string)
  : statement :=
  fun db =>
    let t := logs db in
    let id := Engine.next_rowid (map Log.id (rows t)) (sequence t) in
    let r := Log.Row id user (Some timestamp) action (Some details) in
    inr (id, set_logs (Table (rows t ++ [r]) id) db).

Definition by_name (a b : Product.row) : bool :=
  String.leb (Product.name a) (Product.name b).

Definition by_timestamp_desc (a b : Log.row) : bool :=
  Engine.null_leb (Log.timestamp b) (Log.timestamp a).

(** [SELECT * FROM products ORDER BY name] *)
Definition select_products : query Product.row :=
  fun db => inr (Engine.order_by by_name (rows (products db))).

(** [SELECT * FROM products WHERE id = ?] *)
Definition select_product_by_id (id : Z) : query Product.row :=
  fun db => inr (filter (fun r => Product.id r =? id) (rows (products db))).

(** [SELECT * FROM products WHERE sku = ?] *)
Definition select_product_by_sku (sku : string) : query Product.row :=
  fun db =>
    inr (filter (fun r => Product.sku r =? sku)%string
                (rows (products db))).

(** The [WHERE] condition of the search on one row. *)
Definition where_like (pattern : string) (r : Product.row) : bool :=
  Str.like pattern (Product.name r)
  || Str.like pattern (Product.sku r)
  || Engine.null_like pattern (Product.category r).

(** [SELECT * FROM products
     WHERE name LIKE ? OR sku LIKE ? OR category LIKE ?
     ORDER BY name], the three placeholders bound to the same pattern.
    LIKE runs on each row of the scan and refuses a pattern longer than
    its limit, so that an empty table yields no rows whatever the
    pattern. *)
Definition select_products_like (pattern : string) : query Product.row :=
  fun db =>
    match rows (products db) with
    | [] => inr []
    | _ :: _ =>
        if Str.like_pattern_limit <? Z.of_nat (String.length pattern)
        then inl (OperationalError "LIKE or GLOB pattern too complex")
        else
          inr (Engine.order_by by_name
                 (filter (where_like pattern) (rows (products db))))
    end.

(** [SELECT * FROM logs ORDER BY timestamp DESC LIMIT ?] *)
Definition select_logs (limit : Z) : query Log.row :=
  fun db =>
    inr (Engine.limit limit
           (Engine.order_by by_timestamp_desc (rows (logs db)))).

End SQL.

(** ** [class StorageManager] *)

Module StorageManager.

(** [CREATE TABLE IF NOT EXISTS] for the six tables: a new file gets
    them empty, an initialised one is left as it is. *)
Definition _initialize_tables (file : option database) : database :=
  match file with
  | Some db => db
  | None => Engine.empty_database
  end.

Definition _seed_admin_user (now : string) : M unit :=
  fun db =>
    let count := SQL.count_users db in
    if count =? 0 then
      let password := "admin123" in
      let salt := "ims_secure_salt_2025" in
      let password_hash :=
        SHA256.hexdigest (SHA256.encode (password ++ salt)) in
      match SQL.insert_user "admin" password_hash "admin" now db with
      | inl e => (Raises e, db)
      | inr (_, db') => (Returns tt, db')
      end
    else (Returns tt, db).

(** [StorageManager(db_path)] on a database file whose directory
    exists, past [_ensure_database_exists]: [None] is a file without
    tables, as [sqlite3.connect] creates it. *)
Definition __init__ (file : option database) (now : string)
  : outcome unit * database :=
  _seed_admin_user now (_initialize_tables file).

(** What [cursor.execute] raises when an [int] of [params] does not fit
    the engine's integers. *)
Definition unbound : exn :=
  OverflowError "Python int too large to convert to SQLite INTEGER".

(** [execute_query(query, params)]: the parameters are bound, then the
    statement runs. *)
Definition execute_query {R : Type} (query : SQL.query R)
  (params : list param) : M (list R) :=
  fun db =>
    if forallb binds params then
      match query db with
      | inl e => (Raises e, db)
      | inr rows => (Returns rows, db)
      end
    else (Raises unbound, db).

(** [execute_update(query, params)] *)
Definition execute_update (stmt : SQL.statement) (params : list param)
  : M Z :=
  fun db =>
    if forallb binds params then
      match stmt db with
      | inl e => (Raises e, db)
      | inr (last_id, db') => (Returns last_id, db')
      end
    else (Raises unbound, db).

Definition add_product (sku name : string) (price : number)
  (category : string) (stock : Z) (description : string) (now : string)
  : M Z :=
  execute_update
    (SQL.insert_product sku name price category stock description now)
    [Text sku; Text name; Num price; Text category; Num (Whole stock);
     Text description].

Definition get_all_products : M (list Product.row) :=
  execute_query SQL.select_products [].

Definition get_product_by_id (product_id : Z) : M (option Product.row) :=
  results <- execute_query (SQL.select_product_by_id product_id)
               [Num (Whole product_id)] ;;
  ret (hd_error results).

Definition get_product_by_sku (sku : string) : M (option Product.row) :=
  results <- execute_query (SQL.select_product_by_sku sku) [Text sku] ;;
  ret (hd_error results).

Definition search_products (search_term : string)
  : M (list Product.row) :=
  let pattern := "%" ++ search_term ++ "%" in
  execute_query (SQL.select_products_like pattern)
    [Text pattern; Text pattern; Text pattern].

Definition add_log (user action details : string) (now : string) : M Z :=
  let timestamp := now in
  execute_update (SQL.insert_log user timestamp action details)
    [Text user; Text timestamp; Text action; Text details].

Definition get_logs (limit : Z) : M (list Log.row) :=
  execute_query (SQL.select_logs limit) [Num (Whole limit)].

End StorageManager.

(** ** [class LogManager] *)

Module LogManager.

Definition log_action (user action details : string) (now : string)
  : M unit :=
  _ <- StorageManager.add_log user action details now ;;
  ret tt.

Definition get_recent_logs (limit : Z) : M (list Log.row) :=
  StorageManager.get_logs limit.

Definition get_logs_by_user (username : string) (limit : Z)
  : M (list Log.row) :=
  all_logs <- get_recent_logs (limit * 2) ;;
  let user_logs :=
    filter (fun log => Log.user log =? username)%string all_logs in
  ret (slice_to limit user_logs).

(** [lower] is Python's [str.lower] on the encoded text. *)
Definition get_logs_by_action (lower : string -> string)
  (action : string) (limit : Z) : M (list Log.row) :=
  all_logs <- get_recent_logs (limit * 2) ;;
  let action_logs :=
    filter (fun log => Str.contains (lower action) (lower (Log.action log)))
           all_logs in
  ret (slice_to limit action_logs).

(** [dict(row)] for a row of the logs table. *)
Definition dict_of_row (r : Log.row) : dict :=
  [ ("id", PyInt (Log.id r));
    ("user", PyStr (Log.user r));
    ("timestamp", of_nullable (Log.timestamp r));
    ("action", PyStr (Log.action r));
    ("details", of_nullable (Log.details r)) ]%string.

Definition format_log_entry (log : dict) : string :=
  let timestamp := dict_get log "timestamp" (PyStr "N/A") in
  let user := dict_get log "user" (PyStr "N/A") in
  let action := dict_get log "action" (PyStr "N/A") in
  let details := dict_get log "details" (PyStr "") in
  if truthy details then
    "[" ++ str timestamp ++ "] " ++ str user ++ ": " ++ str action
    ++ " - " ++ str details
  else
    "[" ++ str timestamp ++ "] " ++ str user ++ ": " ++ str action.

(** The text [display_logs] writes to the standard output. *)
Definition display_logs (logs : list dict) : string :=
  match logs with
  | [] => print "No logs found."
  | _ :: _ =>
      print (newline ++ times "=" 80)
      ++ print "AUDIT LOGS"
      ++ print (times "=" 80)
      ++ String.concat "" (map (fun log => print (format_log_entry log)) logs)
      ++ print (times "=" 80 ++ newline)
  end.

End LogManager.

(** ** [class ProductManager] *)

Module ProductManager.

Definition add_product (sku name : string) (price : number)
  (category : string) (stock : Z) (description : string) (user : string)
  (clk : clock) : M (option Z) :=
  existing <- StorageManager.get_product_by_sku sku ;;
  match existing with
  | Some _ => ret None
  | None =>
      if Number.lt0 price then raise (ValueError "Price cannot be negative")
      else if stock <? 0 then
        raise (ValueError "Stock cannot be negative")
      else
        product_id <-
          StorageManager.add_product sku name price category stock
            description (current_timestamp clk) ;;
        _ <- LogManager.log_action user "ADD_PRODUCT"
               ("Added product: " ++ name ++ " (SKU: " ++ sku ++ ")")
               (datetime_now clk) ;;
        ret (Some product_id)
  end.

Definition get_all_products : M (list Product.row) :=
  StorageManager.get_all_products.

Definition get_product (product_id : Z) : M (option Product.row) :=
  StorageManager.get_product_by_id product_id.

Definition search_products (search_term : string)
  : M (list Product.row) :=
  StorageManager.search_products search_term.

End ProductManager.

(** ** States reachable through [ProductManager] *)

Inductive call :=
| Add_product (sku name : string) (price : number) (category : string)
    (stock : Z) (description user : string) (clk : clock)
| Get_all_products
| Get_product (product_id : Z)
| Search_products (search_term : string).

(** The database a call leaves behind, whether it returns or raises. *)
Definition after (c : call) (db : database) : database :=
  match c with
  | Add_product sku name price category stock description user clk =>
      snd (ProductManager.add_product sku name price category stock
             description user clk db)
  | Get_all_products => snd (ProductManager.get_all_products db)
  | Get_product product_id => snd (ProductManager.get_product product_id db)
  | Search_products term => snd (ProductManager.search_products term db)
  end.

Inductive reachable : database -> Prop :=
| reachable_fresh (now : string) :
    reachable (snd (StorageManager.__init__ None now))
| reachable_call (c : call) (db : database) :
    reachable db -> reachable (after c db).

(** ** States reachable through the product and log methods

    The methods of [StorageManager], [LogManager] and [ProductManager]
    that carry their own SQL.  [StorageManager.execute_query],
    [execute_update] and [get_connection], which run whatever statement
    the caller passes, are not requests. *)

Inductive request :=
| Storage_add_product (sku name : string) (price : number)
    (category : string) (stock : Z) (description : string) (now : string)
| Storage_get_all_products
| Storage_get_product_by_id (product_id : Z)
| Storage_get_product_by_sku (sku : string)
| Storage_search_products (search_term : string)
| Storage_add_log (user action details : string) (now : string)
| Storage_get_logs (limit : Z)
| Log_action (user action details : string) (now : string)
| Log_get_recent_logs (limit : Z)
| Log_get_logs_by_user (username : string) (limit : Z)
| Log_get_logs_by_action (action : string) (limit : Z)
| Manager (c : call).

(** The database a request leaves behind, whether it returns or raises. *)
Definition perform (lower : string -> string) (q : request)
  (db : database) : database :=
  match q with
  | Storage_add_product sku name price category stock description now =>
      snd (StorageManager.add_product sku name price category stock
             description now db)
  | Storage_get_all_products => snd (StorageManager.get_all_products db)
  | Storage_get_product_by_id product_id =>
      snd (StorageManager.get_product_by_id product_id db)
  | Storage_get_product_by_sku sku =>
      snd (StorageManager.get_product_by_sku sku db)
  | Storage_search_products term =>
      snd (StorageManager.search_products term db)
  | Storage_add_log user action details now =>
      snd (StorageManager.add_log user action details now db)
  | Storage_get_logs limit => snd (StorageManager.get_logs limit db)
  | Log_action user action details now =>
      snd (LogManager.log_action user action details now db)
  | Log_get_recent_logs limit => snd (LogManager.get_recent_logs limit db)
  | Log_get_logs_by_user username limit =>
      snd (LogManager.get_logs_by_user username limit db)
  | Log_get_logs_by_action action limit =>
      snd (LogManager.get_logs_by_action lower action limit db)
  | Manager c => after c db
  end.

Inductive served (lower : string -> string) : database -> Prop :=
| served_fresh (now : string) :
    served lower (snd (StorageManager.__init__ None now))
| served_request (q : request) (db : database) :
    served lower db -> served lower (perform lower q db).

(** ** Vocabulary of the specification *)

(** SKUs pairwise distinct, no negative price, no negative stock. *)
Definition product_invariant (db : database) : Prop :=
  NoDup (map Product.sku (rows (products db)))
  /\ Forall (fun r => (0 <= Product.price r)%Q /\ 0 <= Product.stock r)
            (rows (products db)).

(** The timestamps of a list of log entries descend. *)
Definition timestamp_descending (a b : Log.row) : Prop :=
  Engine.null_leb (Log.timestamp b) (Log.timestamp a) = true.

(** [recent] is the [n] most recent entries of [all], timestamp
    descending: the entries of [all] can be put in an order of
    descending timestamps that starts with [recent], and [recent] has
    [n] entries, or is all of them when there are fewer. *)
Definition most_recent (n : nat) (all recent : list Log.row) : Prop :=
  exists older,
    Permutation (recent ++ older) all
    /\ StronglySorted timestamp_descending (recent ++ older)
    /\ List.length recent = Nat.min n (List.length all).

(** The term appears in the name, the SKU or the category. *)
Definition product_matches (occurs : string -> string -> Prop)
  (term : string) (r : Product.row) : Prop :=
  occurs term (Product.name r)
  \/ occurs term (Product.sku r)
  \/ exists c, Product.category r = Some c /\ occurs term c.

(** [t] occurs, up to the case of the letters [A-Z], in the part of [s]
    that LIKE reads. *)
Definition occurs_in_column (t s : string) : Prop :=
  Str.occurs_in_nocase t (Str.c_string s).

(** Whether the term appears, up to the case of the letters [A-Z], in
    the name, the SKU or the category of a row, as LIKE reads them. *)
Definition search_hit (term : string) (r : Product.row) : bool :=
  Str.contains (Str.lower term) (Str.lower (Str.c_string (Product.name r)))
  || Str.contains (Str.lower term)
       (Str.lower (Str.c_string (Product.sku r)))
  || match Product.category r with
     | Some c => Str.contains (Str.lower term) (Str.lower (Str.c_string c))
     | None => false
     end.

Definition name_ascending (a b : Product.row) : Prop :=
  Str.text_le (Product.name a) (Product.name b).

(** The stored timestamp sorts strictly before [now]. *)
Definition earlier_than (now : string) (r : Log.row) : Prop :=
  Engine.null_leb (Some now) (Log.timestamp r) = false.



(** The rowids of a table are pairwise distinct and none exceeds the
    AUTOINCREMENT counter. *)
Definition keyed {R : Type} (id : R -> Z) (t : table R) : Prop :=
  NoDup (map id (rows t)) /\ Forall (fun r => id r <= sequence t) (rows t).

(** The row [_seed_admin_user] inserts into an empty users table of a new
    file. *)
Definition admin_row (now : string) : User.row :=
  User.Row 1 "admin"
    (SHA256.hexdigest (SHA256.encode ("admin123" ++ "ims_secure_salt_2025")))
    "admin" (Some now).

(** What holds of a store however the product and log methods were
    called: the keys of products and of log entries are sound, the users
    table holds the seeded administrator alone, and the three tables
    without operations are empty. *)
Definition store_invariant (db : database) : Prop :=
  NoDup (map Product.sku (rows (products db)))
  /\ keyed Product.id (products db)
  /\ keyed Log.id (logs db)
  /\ (exists now, rows (users db) = [admin_row now])
  /\ rows (suppliers db) = []
  /\ rows (sales_orders db) = []
  /\ rows (purchase_orders db) = [].




(** The id returned and the store left by a call of
    [ProductManager.add_product] that appends a product, kept with the
    price [real], and its log entry. *)
Definition appended (sku name : string) (real : Q) (category : string)
  (stock : Z) (description user : string) (clk : clock) (db : database)
  : Z * database :=
  let t := products db in
  let id := Engine.next_rowid (map Product.id (rows t)) (sequence t) in
  let r := Product.Row id sku name real (Some category) stock
             (Some description) (Some (current_timestamp clk))
             (Some (current_timestamp clk)) in
  let g := logs db in
  let lid := Engine.next_rowid (map Log.id (rows g)) (sequence g) in
  let e := Log.Row lid user (Some (datetime_now clk)) "ADD_PRODUCT"
             (Some ("Added product: " ++ name ++ " (SKU: " ++ sku ++ ")")) in
  (id,
   Database (users db) (Table (rows t ++ [r]) id) (suppliers db)
     (sales_orders db) (purchase_orders db) (Table (rows g ++ [e]) lid)).

(** ** Sample stores

    The stores built by the unit tests of the repository, used to run the
    model on concrete inputs. *)

Module Sample.

Definition at_second (n : string) : clock :=
  Clock ("2025-10-31 12:00:" ++ n) ("2025-10-31T12:00:" ++ n ++ ".000100").

(** [StorageManager(temp_db)] on a new file. *)
Definition fresh : database :=
  snd (StorageManager.__init__ None "2025-10-31 12:00:00").

(** The store of [test_search_products]. *)
Definition shop : database :=
  after (Add_product "CHAIR001" "Office Chair" (Floating (19999 # 100))
           "Furniture" 20 "" "system" (at_second "03"))
    (after (Add_product "LAPTOP002" "Business Laptop"
              (Floating (99999 # 100)) "Electronics" 15 "" "system"
              (at_second "02"))
       (after (Add_product "LAPTOP001" "Gaming Laptop"
                 (Floating (129999 # 100)) "Electronics" 10 "" "system"
                 (at_second "01"))
          fresh)).

(** The store of [test_get_logs_by_user]. *)
Definition audit : database :=
  snd ((_ <- LogManager.log_action "alice" "LOGIN" "Logged in"
               "2025-10-31T12:00:01.000100" ;;
        _ <- LogManager.log_action "bob" "LOGOUT" "Logged out"
               "2025-10-31T12:00:02.000100" ;;
        LogManager.log_action "alice" "ADD_PRODUCT" "Added product"
          "2025-10-31T12:00:03.000100") fresh).

(** Two entries of alice followed by two of bob. *)
Definition audit_tail : database :=
  snd ((_ <- LogManager.log_action "alice" "LOGIN" "Logged in"
               "2025-10-31T12:00:01.000100" ;;
        _ <- LogManager.log_action "alice" "LOGOUT" "Logged out"
               "2025-10-31T12:00:02.000100" ;;
        _ <- LogManager.log_action "bob" "LOGIN" "Logged in"
               "2025-10-31T12:00:03.000100" ;;
        LogManager.log_action "bob" "LOGOUT" "Logged out"
          "2025-10-31T12:00:04.000100") fresh).

(** A reading of the local clock taken after a later one: the hour
    repeated when daylight saving time ends. *)
Definition clock_set_back : clock :=
  Clock "2025-11-02 06:10:00" "2025-11-02T01:10:00.000100".

Definition audit_before_set_back : database :=
  snd (LogManager.log_action "bob" "LOGIN" "Logged in"
         "2025-11-02T01:50:00.000100" fresh).

End Sample.

(** ** Text lemmas *)

Section Text.

Local Open Scope string_scope.

Lemma append_nil_r (s : string) : s ++ "" = s.
Proof. induction s as [|c s IH]; simpl; congruence. Qed.

Lemma append_assoc (a b c : string) : (a ++ b) ++ c = a ++ b ++ c.
Proof. induction a as [|x a IH]; simpl; congruence. Qed.

Lemma lower_append (a b : string) :
  Str.lower (a ++ b) = Str.lower a ++ Str.lower b.
Proof. induction a as [|x a IH]; simpl; congruence. Qed.

(** A split of [lower s] comes from a split of [s]. *)
Lemma lower_split (s u v : string) :
  Str.lower s = u ++ v ->
  exists s1 s2, s = s1 ++ s2 /\ Str.lower s1 = u /\ Str.lower s2 = v.
Proof.
  revert s. induction u as [|x u IH]; intros s H.
  - exists "", s. auto.
  - destruct s as [|c s]; simpl in H; [discriminate|].
    injection H as Hc Hs. destruct (IH _ Hs) as (s1 & s2 & -> & <- & <-).
    exists (String c s1), s2. simpl. rewrite Hc. auto.
Qed.

Lemma starts_with_spec (n h : string) :
  Str.starts_with n h = true <-> exists post, h = n ++ post.
Proof.
  revert h. induction n as [|a n IH]; intros h; simpl.
  - split; eauto.
  - destruct h as [|b h].
    + split; [discriminate | intros [p Hp]; discriminate].
    + rewrite andb_true_iff, Ascii.eqb_eq, IH. split.
      * intros [-> [p ->]]. eauto.
      * intros [p Hp]. injection Hp as -> ->. eauto.
Qed.

(** Python's [in] is occurrence. *)
Lemma contains_spec (n h : string) :
  Str.contains n h = true <-> Str.occurs_in n h.
Proof.
  unfold Str.occurs_in. induction h as [|b h IH].
  - simpl. rewrite orb_false_r, starts_with_spec. split.
    + intros [p Hp]. exists "", p. exact Hp.
    + intros (pre & post & H). destruct pre; [eauto|discriminate].
  - cbn [Str.contains]. rewrite orb_true_iff, starts_with_spec, IH. split.
    + intros [[p Hp] | (pre & post & ->)].
      * exists "", p. exact Hp.
      * exists (String b pre), post. reflexivity.
    + intros (pre & post & H). destruct pre as [|c pre]; simpl in H.
      * left. eauto.
      * injection H as -> ->. right. eauto.
Qed.

(** [a.lower() in s.lower()] is occurrence up to case. *)
Lemma contains_lower_spec (a s : string) :
  Str.contains (Str.lower a) (Str.lower s) = true
  <-> Str.occurs_in_nocase a s.
Proof.
  rewrite contains_spec. unfold Str.occurs_in, Str.occurs_in_nocase. split.
  - intros (pre & post & H).
    apply lower_split in H. destruct H as (s1 & s2 & -> & _ & H2).
    apply lower_split in H2. destruct H2 as (m & s3 & -> & Hm & _).
    exists s1, m, s3. auto.
  - intros (pre & mid & post & -> & Hm).
    exists (Str.lower pre), (Str.lower post).
    rewrite !lower_append, Hm. reflexivity.
Qed.

End Text.

(** ** The LIKE matcher *)

Section Like.

Local Open Scope string_scope.

Lemma lower_char_nul (c : ascii) :
  Ascii.eqb (Str.lower_char c) Str.nul = Ascii.eqb c Str.nul.
Proof. destruct c as [[] [] [] [] [] [] [] []]; reflexivity. Qed.

Lemma lower_char_percent (c : ascii) :
  Ascii.eqb (Str.lower_char c) "%" = Ascii.eqb c "%".
Proof. destruct c as [[] [] [] [] [] [] [] []]; reflexivity. Qed.

Lemma lower_char_underscore (c : ascii) :
  Ascii.eqb (Str.lower_char c) "_" = Ascii.eqb c "_".
Proof. destruct c as [[] [] [] [] [] [] [] []]; reflexivity. Qed.

Lemma lower_char_idempotent (c : ascii) :
  Str.lower_char (Str.lower_char c) = Str.lower_char c.
Proof. destruct c as [[] [] [] [] [] [] [] []]; reflexivity. Qed.

(** Folding the case commutes with the cut at the first NUL. *)
Lemma c_string_lower (s : string) :
  Str.c_string (Str.lower s) = Str.lower (Str.c_string s).
Proof.
  induction s as [|c s IH]; [reflexivity|].
  cbn [Str.lower Str.c_string]. rewrite lower_char_nul.
  destruct (Ascii.eqb c Str.nul); [reflexivity|].
  cbn [Str.lower]. rewrite IH. reflexivity.
Qed.

(** A term without NUL is read whole. *)
Lemma c_string_plain (t q : string) :
  Str.plain t = true -> Str.c_string (t ++ q) = t ++ Str.c_string q.
Proof.
  induction t as [|c t IH]; intros Hp; [reflexivity|].
  cbn [Str.plain] in Hp. apply andb_true_iff in Hp as [Hc Hp].
  apply andb_true_iff in Hc as [_ Hc]. apply negb_true_iff in Hc.
  cbn [append Str.c_string]. rewrite Hc, (IH Hp). reflexivity.
Qed.

(** Once a [%] is open, a byte that is no metacharacter is looked for
    from every position of the text. *)
Lemma compare_pattern_scan (c : ascii) (p t : string) :
  Ascii.eqb c "%" = false -> Ascii.eqb c "_" = false ->
  Str.compare_pattern true (String c p) t
  = match t with
    | EmptyString => false
    | String d t' =>
        (Ascii.eqb (Str.lower_char c) (Str.lower_char d)
         && Str.compare_pattern false p t')
        || Str.compare_pattern true (String c p) t'
    end.
Proof.
  intros H1 H2. destruct t as [|d t]; cbn [Str.compare_pattern];
    rewrite H1, H2; reflexivity.
Qed.

Lemma compare_pattern_literal (c : ascii) (p t : string) :
  Ascii.eqb c "%" = false -> Ascii.eqb c "_" = false ->
  Str.compare_pattern false (String c p) t
  = match t with
    | EmptyString => false
    | String d t' =>
        Ascii.eqb (Str.lower_char c) (Str.lower_char d)
        && Str.compare_pattern false p t'
    end.
Proof.
  intros H1 H2. cbn [Str.compare_pattern]. rewrite H1, H2. reflexivity.
Qed.

Lemma plain_cons (c : ascii) (t : string) :
  Str.plain (String c t) = true ->
  Ascii.eqb c "%" = false /\ Ascii.eqb c "_" = false
  /\ Ascii.eqb c Str.nul = false /\ Str.plain t = true.
Proof.
  cbn [Str.plain]. rewrite !andb_true_iff, !negb_true_iff. tauto.
Qed.

(** A term without metacharacters followed by [%] matches the texts
    that start with it, up to the case of [A-Z]. *)
Lemma compare_pattern_prefix (t s : string) :
  Str.plain t = true ->
  Str.compare_pattern false (t ++ "%") s
  = Str.starts_with (Str.lower t) (Str.lower s).
Proof.
  revert s. induction t as [|c t IH]; intros s Hp.
  - destruct s; reflexivity.
  - apply plain_cons in Hp as (H1 & H2 & _ & Hp).
    cbn [append]. rewrite (compare_pattern_literal _ _ _ H1 H2).
    destruct s as [|d s]; [reflexivity|].
    cbn [Str.lower Str.starts_with]. rewrite (IH s Hp). reflexivity.
Qed.

(** With a [%] on both sides it matches the texts that contain it. *)
Lemma compare_pattern_contains (t s : string) :
  Str.plain t = true ->
  Str.compare_pattern true (t ++ "%") s
  = Str.contains (Str.lower t) (Str.lower s).
Proof.
  intros Hp. destruct t as [|c t].
  - destruct s; reflexivity.
  - pose proof (compare_pattern_prefix (String c t)) as Hprefix.
    apply plain_cons in Hp as Hc. destruct Hc as (H1 & H2 & _ & _).
    induction s as [|d s IH].
    + cbn [append]. rewrite (compare_pattern_scan _ _ _ H1 H2).
      reflexivity.
    + cbn [append]. rewrite (compare_pattern_scan _ _ _ H1 H2).
      cbn [append] in IH. rewrite IH.
      specialize (Hprefix (String d s) Hp). cbn [append] in Hprefix.
      rewrite (compare_pattern_literal _ _ _ H1 H2) in Hprefix.
      rewrite Hprefix. reflexivity.
Qed.

(** The pattern [search_products] builds from a term without
    metacharacters matches the texts in which, read up to their first
    NUL, the term occurs up to the case of [A-Z]. *)
Lemma like_substring (t s : string) :
  Str.plain t = true ->
  Str.like ("%" ++ t ++ "%") s
  = Str.contains (Str.lower t) (Str.lower (Str.c_string s)).
Proof.
  intros Hp. unfold Str.like.
  change ("%" ++ t ++ "%") with (String "%" (t ++ "%")).
  cbn [Str.c_string]. change (Ascii.eqb "%" Str.nul) with false.
  cbv iota. rewrite (c_string_plain t "%" Hp).
  change (Str.c_string "%") with "%".
  cbn [Str.compare_pattern]. rewrite Ascii.eqb_refl.
  apply compare_pattern_contains, Hp.
Qed.

(** Folding the case of a pattern does not change what it matches. *)
Lemma compare_pattern_lower (p : string) :
  forall (star : bool) (s : string),
    Str.compare_pattern star (Str.lower p) s = Str.compare_pattern star p s.
Proof.
  induction p as [|c p IH]; intros star s; [reflexivity|].
  cbn [Str.lower Str.compare_pattern].
  rewrite lower_char_percent, lower_char_underscore,
    lower_char_idempotent.
  destruct (Ascii.eqb c "%"); [apply IH|].
  destruct (Ascii.eqb c "_").
  - destruct s; [reflexivity | apply IH].
  - destruct star.
    + induction s as [|d s IHs]; [reflexivity|].
      rewrite IHs, IH. reflexivity.
    + destruct s; [reflexivity|]. rewrite IH. reflexivity.
Qed.

Lemma like_lower_pattern (p s : string) :
  Str.like (Str.lower p) s = Str.like p s.
Proof.
  unfold Str.like. rewrite c_string_lower. apply compare_pattern_lower.
Qed.

Lemma length_append (a b : string) :
  String.length (a ++ b) = (String.length a + String.length b)%nat.
Proof. induction a as [|c a IH]; simpl; congruence. Qed.

Lemma length_lower (s : string) :
  String.length (Str.lower s) = String.length s.
Proof. induction s as [|c s IH]; simpl; congruence. Qed.

End Like.

(** ** ORDER BY and LIMIT *)

Section OrderBy.

Context {R : Type} (le : R -> R -> bool).

Lemma insert_by_Permutation (x : R) (l : list R) :
  Permutation (Engine.insert_by le x l) (x :: l).
Proof.
  induction l as [|y l IH]; simpl; [reflexivity|].
  destruct (le x y); [reflexivity|].
  rewrite IH. apply perm_swap.
Qed.

(** The result holds the rows of the scan, each as often as the scan. *)
Lemma order_by_Permutation (l : list R) :
  Permutation (Engine.order_by le l) l.
Proof.
  induction l as [|x l IH]; simpl; [reflexivity|].
  rewrite insert_by_Permutation. auto.
Qed.

Lemma order_by_In (l : list R) (r : R) :
  In r (Engine.order_by le l) <-> In r l.
Proof.
  split; apply Permutation_in;
    [|symmetry]; apply order_by_Permutation.
Qed.

Hypothesis le_total : forall a b, le a b = true \/ le b a = true.

Lemma insert_by_Sorted (x : R) (l : list R) :
  Sorted (fun a b => le a b = true) l ->
  Sorted (fun a b => le a b = true) (Engine.insert_by le x l).
Proof.
  induction 1 as [|y l Hs IH Hhd]; simpl; [auto|].
  destruct (le x y) eqn:Hxy.
  - auto.
  - constructor; [exact IH|].
    assert (Hyx : le y x = true)
      by (destruct (le_total x y); congruence).
    destruct l as [|z l]; simpl; [auto|].
    destruct (le x z); constructor; [exact Hyx|].
    inversion Hhd; assumption.
Qed.

Lemma order_by_Sorted (l : list R) :
  Sorted (fun a b => le a b = true) (Engine.order_by le l).
Proof.
  induction l as [|x l IH]; simpl; [constructor|].
  apply insert_by_Sorted, IH.
Qed.

(** A row that every other row sorts strictly after the newcomer's
    place moves to the front when it is appended to the scan. *)
Lemma order_by_snoc_first (l : list R) (e : R) :
  Forall (fun r => le r e = false) l ->
  Engine.order_by le (l ++ [e]) = e :: Engine.order_by le l.
Proof.
  induction 1 as [|x l Hx Hl IH]; [reflexivity|].
  change (Engine.insert_by le x (Engine.order_by le (l ++ [e]))
          = e :: Engine.insert_by le x (Engine.order_by le l)).
  rewrite IH. simpl. rewrite Hx. reflexivity.
Qed.

End OrderBy.

Section Lists.

Context {A : Type}.

Lemma limit_of_nat (n : nat) (l : list A) :
  Engine.limit (Z.of_nat n) l = firstn n l.
Proof.
  unfold Engine.limit.
  destruct (Z.ltb_spec (Z.of_nat n) 0); [lia|].
  rewrite Nat2Z.id. reflexivity.
Qed.

Lemma slice_to_of_nat (n : nat) (l : list A) :
  slice_to (Z.of_nat n) l = firstn n l.
Proof.
  unfold slice_to.
  destruct (Z.ltb_spec (Z.of_nat n) 0); [lia|].
  rewrite Nat2Z.id. reflexivity.
Qed.

Lemma filter_none (f : A -> bool) (l : list A) :
  (forall x, In x l -> f x = false) -> filter f l = [].
Proof.
  induction l as [|x l IH]; simpl; intros H; [reflexivity|].
  rewrite (H x) by auto. apply IH. auto.
Qed.

Lemma filter_some (f : A -> bool) (l : list A) :
  (exists x, In x l /\ f x = true) -> filter f l <> [].
Proof.
  intros (x & Hin & Hx) Hnil.
  assert (Hf : In x (filter f l)) by (apply filter_In; auto).
  rewrite Hnil in Hf. exact Hf.
Qed.

End Lists.

(** ** Product creation *)

Section AddProduct.

Lemma Qltb_spec (x y : Q) : Qltb x y = true <-> (x < y)%Q.
Proof. unfold Qltb, Qlt. apply Z.ltb_lt. Qed.

Lemma Qltb_false (x y : Q) : Qltb x y = false <-> (y <= x)%Q.
Proof. unfold Qltb, Qle. rewrite Z.ltb_ge. reflexivity. Qed.

Lemma int64_spec (z : Z) : int64 z = true <-> - 2 ^ 63 <= z < 2 ^ 63.
Proof. unfold int64. rewrite andb_true_iff, Z.leb_le, Z.ltb_lt. tauto. Qed.

(** Rounding to a double keeps the sign. *)
Lemma round53_nonneg (z : Z) : 0 <= z -> 0 <= Number.round53 z.
Proof.
  intros Hz. unfold Number.round53.
  destruct (Z.leb_spec (Z.log2 (Z.abs z) - 52) 0) as [|Hk]; [exact Hz|].
  apply Z.mul_nonneg_nonneg; [apply Z.sgn_nonneg, Hz|].
  assert (Hm : 0 <= Z.abs z / 2 ^ (Z.log2 (Z.abs z) - 52)).
  { apply Z.div_pos; [apply Z.abs_nonneg|].
    apply Z.pow_pos_nonneg; lia. }
  apply Z.mul_nonneg_nonneg; [|apply Z.pow_nonneg; lia].
  destruct (_ || _); lia.
Qed.

(** A number that is not below zero is not kept as a negative price. *)
Lemma stored_nonneg (price : number) (real : Q) :
  Number.lt0 price = false -> Number.stored price = Some real ->
  (0 <= real)%Q.
Proof.
  destruct price as [z | q |]; cbn [Number.lt0 Number.stored];
    intros Hlt [= <-].
  - apply Z.ltb_ge in Hlt. apply round53_nonneg in Hlt.
    unfold Qle, inject_Z. cbn [Qnum Qden]. lia.
  - apply Qltb_false, Hlt.
Qed.


Lemma get_product_by_sku_run (db : database) (sku : string) :
  StorageManager.get_product_by_sku sku db
  = (Returns
       (hd_error (filter (fun r => Product.sku r =? sku)%string
                         (rows (products db)))),
     db).
Proof. reflexivity. Qed.

Lemma select_by_sku_present (db : database) (sku : string) :
  (exists r, In r (rows (products db)) /\ Product.sku r = sku) ->
  exists r,
    hd_error (filter (fun r => Product.sku r =? sku)%string
                     (rows (products db)))
    = Some r.
Proof.
  intros (r & Hin & Hr).
  destruct (filter _ _) as [|r' l] eqn:Hf; simpl; [|eauto].
  exfalso. revert Hf. apply filter_some. exists r.
  split; [exact Hin | apply String.eqb_eq, Hr].
Qed.

Lemma select_by_sku_absent (db : database) (sku : string) :
  (forall r, In r (rows (products db)) -> Product.sku r <> sku) ->
  filter (fun r => Product.sku r =? sku)%string (rows (products db)) = [].
Proof.
  intros H. apply filter_none. intros r Hin.
  apply String.eqb_neq, H, Hin.
Qed.

Lemma select_by_sku_none (db : database) (sku : string) :
  hd_error (filter (fun r => Product.sku r =? sku)%string
                   (rows (products db)))
  = None ->
  forall r, In r (rows (products db)) -> Product.sku r <> sku.
Proof.
  intros Hnone r Hin Hr.
  destruct (select_by_sku_present db sku) as [r' Hr']; [eauto|].
  congruence.
Qed.

Lemma unique_sku_holds (db : database) (sku : string) :
  (forall r, In r (rows (products db)) -> Product.sku r <> sku) ->
  existsb (fun r => Product.sku r =? sku)%string (rows (products db))
  = false.
Proof.
  intros H. destruct (existsb _ _) eqn:E; [|reflexivity].
  apply existsb_exists in E. destruct E as (r & Hin & Hr).
  apply String.eqb_eq in Hr. destruct (H r Hin Hr).
Qed.


(** The parameters of the insertion are bound when the two numbers
    are. *)
Lemma add_product_params (sku name : string) (price : number)
  (category : string) (stock : Z) (description : string) :
  forallb binds
    [Text sku; Text name; Num price; Text category; Num (Whole stock);
     Text description]
  = binds (Num price) && int64 stock.
Proof.
  cbn [forallb]. change (binds (Num (Whole stock))) with (int64 stock).
  change (binds (Text sku)) with true.
  change (binds (Text name)) with true.
  change (binds (Text category)) with true.
  change (binds (Text description)) with true.
  cbn [andb]. rewrite andb_true_r. reflexivity.
Qed.

(** What [StorageManager.add_product] does, check by check. *)
Lemma storage_add_product_run (db : database) (sku name : string)
  (price : number) (category : string) (stock : Z)
  (description now : string) :
  StorageManager.add_product sku name price category stock description
    now db
  = if binds (Num price) && int64 stock then
      match Number.stored price with
      | None =>
          (Raises
             (IntegrityError "NOT NULL constraint failed: products.price"),
           db)
      | Some real =>
          if existsb (fun r => Product.sku r =? sku)%string
                     (rows (products db))
          then
            (Raises
               (IntegrityError "UNIQUE constraint failed: products.sku"),
             db)
          else
            let t := products db in
            let id :=
              Engine.next_rowid (map Product.id (rows t)) (sequence t) in
            (Returns id,
             SQL.set_products
               (Table (rows t
                       ++ [Product.Row id sku name real (Some category)
                             stock (Some description) (Some now)
                             (Some now)]) id) db)
      end
    else (Raises StorageManager.unbound, db).
Proof.
  unfold StorageManager.add_product, StorageManager.execute_update.
  rewrite add_product_params.
  destruct (binds (Num price) && int64 stock); [|reflexivity].
  unfold SQL.insert_product.
  destruct (Number.stored price) as [real|]; [|reflexivity].
  destruct (existsb _ _); reflexivity.
Qed.

(** What a call on a SKU that is taken does. *)
Lemma add_product_taken (db : database) (sku name : string)
  (price : number) (category : string) (stock : Z)
  (description user : string) (clk : clock) :
  (exists r, In r (rows (products db)) /\ Product.sku r = sku) ->
  ProductManager.add_product sku name price category stock description
    user clk db
  = (Returns None, db).
Proof.
  intros H. apply select_by_sku_present in H. destruct H as [r Hr].
  unfold ProductManager.add_product, bind.
  rewrite get_product_by_sku_run, Hr. reflexivity.
Qed.

(** What a call on a free SKU does, check by check. *)
Lemma add_product_free (db : database) (sku name : string)
  (price : number) (category : string) (stock : Z)
  (description user : string) (clk : clock) :
  (forall r, In r (rows (products db)) -> Product.sku r <> sku) ->
  ProductManager.add_product sku name price category stock description
    user clk db
  = if Number.lt0 price then
      (Raises (ValueError "Price cannot be negative"), db)
    else if stock <? 0 then
      (Raises (ValueError "Stock cannot be negative"), db)
    else if binds (Num price) && int64 stock then
      match Number.stored price with
      | None =>
          (Raises
             (IntegrityError "NOT NULL constraint failed: products.price"),
           db)
      | Some real =>
          (Returns
             (Some (fst (appended sku name real category stock description
                           user clk db))),
           snd (appended sku name real category stock description user
                  clk db))
      end
    else (Raises StorageManager.unbound, db).
Proof.
  intros Hfree.
  unfold ProductManager.add_product, bind.
  rewrite get_product_by_sku_run, (select_by_sku_absent db sku Hfree).
  cbn [hd_error].
  destruct (Number.lt0 price); [reflexivity|].
  destruct (stock <? 0); [reflexivity|].
  rewrite storage_add_product_run, (unique_sku_holds db sku Hfree).
  destruct (binds (Num price) && int64 stock); [|reflexivity].
  destruct (Number.stored price) as [real|]; reflexivity.
Qed.

(** A call that returns an id found the SKU free and the numbers valid,
    and appended a product and its log entry. *)
Lemma add_product_returns_id (db db' : database) (sku name : string)
  (price : number) (category : string) (stock : Z)
  (description user : string) (clk : clock) (id : Z) :
  ProductManager.add_product sku name price category stock description
    user clk db
  = (Returns (Some id), db') ->
  (forall r, In r (rows (products db)) -> Product.sku r <> sku)
  /\ Number.lt0 price = false /\ 0 <= stock
  /\ exists real,
       Number.stored price = Some real
       /\ (id, db')
          = appended sku name real category stock description user clk db.
Proof.
  intros Hrun.
  assert (Hfree : forall r, In r (rows (products db)) ->
                            Product.sku r <> sku).
  { apply select_by_sku_none.
    revert Hrun. unfold ProductManager.add_product, bind.
    rewrite get_product_by_sku_run.
    destruct (hd_error _); [discriminate | reflexivity]. }
  split; [exact Hfree|].
  rewrite (add_product_free db sku name price category stock description
             user clk Hfree) in Hrun.
  destruct (Number.lt0 price); [discriminate|].
  destruct (Z.ltb_spec stock 0); [discriminate|].
  destruct (binds (Num price) && int64 stock); [|discriminate].
  destruct (Number.stored price) as [real|]; [|discriminate].
  injection Hrun as <- <-.
  split; [reflexivity|]. split; [assumption|].
  exists real. split; [reflexivity|]. apply surjective_pairing.
Qed.

End AddProduct.

(** C1: when the store holds a product with the SKU, [add_product]
    returns [None] and leaves the whole store as it was, for any price
    and any stock, negative ones included: no row is written, no log
    entry is added and nothing is raised. *)
Theorem add_product_duplicate_sku (db : database) (sku name : string)
  (price : number) (category : string) (stock : Z)
  (description user : string) (clk : clock) :
  (exists r, In r (rows (products db)) /\ Product.sku r = sku) ->
  ProductManager.add_product sku name price category stock description
    user clk db
  = (Returns None, db).
Proof. apply add_product_taken. Qed.

Lemma add_product_duplicate_sku_witness :
  (exists r, In r (rows (products Sample.shop))
             /\ Product.sku r = "LAPTOP001")
  /\ ProductManager.add_product "LAPTOP001" "Laptop 2"
       (Floating (-1 # 1)) "Electronics" (-1) "" "system"
       (Sample.at_second "04") Sample.shop
     = (Returns None, Sample.shop).
Proof.
  assert (H : exists r, In r (rows (products Sample.shop))
                        /\ Product.sku r = "LAPTOP001").
  { eexists. split; [left; reflexivity | reflexivity]. }
  split; [exact H|].
  apply (add_product_duplicate_sku Sample.shop "LAPTOP001" "Laptop 2"
           (Floating (-1 # 1)) "Electronics" (-1) "" "system"
           (Sample.at_second "04")).
  exact H.
Defined.






(** An int price beyond 53 bits is kept rounded, and one beyond 64 bits
    is refused. *)
Example add_product_int_price :
  (exists id db' r,
     ProductManager.add_product "BIG001" "Big" (Whole (2 ^ 53 + 1)) "Cat" 1
       "" "system" (Sample.at_second "01") Sample.fresh
     = (Returns (Some id), db')
     /\ StorageManager.get_product_by_sku "BIG001" db'
        = (Returns (Some r), db')
     /\ Product.price r = inject_Z (2 ^ 53))
  /\ ProductManager.add_product "BIG001" "Big" (Whole (2 ^ 63)) "Cat" 1
       "" "system" (Sample.at_second "01") Sample.fresh
     = (Raises StorageManager.unbound, Sample.fresh).
Proof.
  split; [eexists _, _, _|]; vm_compute; repeat split; reflexivity.
Qed.

(** ** The audit entry of a product creation *)

(** C4, as stated, fails: with an entry already in the log and a local
    clock that was set back before the call, [get_recent_logs 1] after a
    successful [add_product] returns the older entry. *)
Lemma add_product_logs_action_counterexample :
  ~ (forall (db db' : database) (sku name : string) (price : number)
       (category : string) (stock : Z) (description user : string)
       (clk : clock) (id : Z),
        ProductManager.add_product sku name price category stock
          description user clk db
        = (Returns (Some id), db') ->
        exists e d,
          LogManager.get_recent_logs 1 db' = (Returns [e], db')
          /\ Log.action e = "ADD_PRODUCT"
          /\ Log.user e = user
          /\ Log.details e = Some d
          /\ Str.occurs_in name d /\ Str.occurs_in sku d).
Proof.
  intros H.
  destruct (H Sample.audit_before_set_back _ "PROD001" "Test Product"
              (Floating (9999 # 100)) "Test" 10 "" "testuser"
              Sample.clock_set_back _ eq_refl)
    as (e & d & Hlogs & Haction & _).
  vm_compute in Hlogs. injection Hlogs as <-. discriminate Haction.
Qed.

(** C4, amended: a successful [add_product] appends exactly one log
    entry, with action ADD_PRODUCT, the caller's user and details that
    contain the product name and the SKU; and when every timestamp
    already in the log sorts strictly before the one generated for this
    entry, [get_recent_logs 1] right after the call returns exactly this
    entry. *)
Theorem add_product_logs_action (db db' : database) (sku name : string)
  (price : number) (category : string) (stock : Z)
  (description user : string) (clk : clock) (id : Z) :
  ProductManager.add_product sku name price category stock description
    user clk db
  = (Returns (Some id), db') ->
  exists e d,
    rows (logs db') = (rows (logs db) ++ [e])%list
    /\ Log.action e = "ADD_PRODUCT"
    /\ Log.user e = user
    /\ Log.details e = Some d
    /\ Str.occurs_in name d /\ Str.occurs_in sku d
    /\ (Forall (earlier_than (datetime_now clk)) (rows (logs db)) ->
        LogManager.get_recent_logs 1 db' = (Returns [e], db')).
Proof.
  intros Hrun.
  destruct (add_product_returns_id _ _ _ _ _ _ _ _ _ _ _ Hrun)
    as (_ & _ & _ & real & _ & Hdef).
  unfold appended in Hdef. injection Hdef as _ ->.
  eexists _, _. cbn [logs rows].
  split; [reflexivity|]. split; [reflexivity|]. split; [reflexivity|].
  split; [reflexivity|]. split; [|split].
  - exists "Added product: "%string, (" (SKU: " ++ sku ++ ")")%string.
    reflexivity.
  - exists ("Added product: " ++ name ++ " (SKU: ")%string, ")"%string.
    rewrite !append_assoc. reflexivity.
  - intros Hearlier.
    unfold LogManager.get_recent_logs, StorageManager.get_logs,
      StorageManager.execute_query, SQL.select_logs.
    cbn [logs rows forallb binds]. change (int64 1) with true.
    cbn [andb]. rewrite order_by_snoc_first; [reflexivity|].
    exact Hearlier.
Qed.

Lemma add_product_logs_action_witness :
  ProductManager.add_product "PROD001" "Test Product"
    (Floating (9999 # 100)) "Test" 10 "" "testuser"
    (Sample.at_second "04") Sample.audit
  = (Returns (Some 1),
     after (Add_product "PROD001" "Test Product" (Floating (9999 # 100))
              "Test" 10 "" "testuser" (Sample.at_second "04"))
       Sample.audit)
  /\ Forall (earlier_than (datetime_now (Sample.at_second "04")))
            (rows (logs Sample.audit))
  /\ exists e d,
       rows (logs (after (Add_product "PROD001" "Test Product"
                            (Floating (9999 # 100)) "Test" 10 ""
                            "testuser" (Sample.at_second "04"))
                     Sample.audit))
       = (rows (logs Sample.audit) ++ [e])%list
       /\ Log.action e = "ADD_PRODUCT"
       /\ Log.user e = "testuser"
       /\ Log.details e = Some d
       /\ Str.occurs_in "Test Product" d /\ Str.occurs_in "PROD001" d
       /\ (Forall (earlier_than (datetime_now (Sample.at_second "04")))
                  (rows (logs Sample.audit)) ->
           LogManager.get_recent_logs 1
             (after (Add_product "PROD001" "Test Product"
                       (Floating (9999 # 100)) "Test" 10 "" "testuser"
                       (Sample.at_second "04"))
                Sample.audit)
           = (Returns [e],
              after (Add_product "PROD001" "Test Product"
                       (Floating (9999 # 100)) "Test" 10 "" "testuser"
                       (Sample.at_second "04"))
                Sample.audit)).
Proof.
  assert (H : ProductManager.add_product "PROD001" "Test Product"
                (Floating (9999 # 100)) "Test" 10 "" "testuser"
                (Sample.at_second "04") Sample.audit
              = (Returns (Some 1),
                 after (Add_product "PROD001" "Test Product"
                          (Floating (9999 # 100)) "Test" 10 "" "testuser"
                          (Sample.at_second "04"))
                   Sample.audit))
    by (vm_compute; reflexivity).
  split; [exact H|]. split.
  - repeat constructor.
  - exact (add_product_logs_action _ _ _ _ _ _ _ _ _ _ _ H).
Defined.

(** ** Seeding of the administrator *)

(** The digest stored for the default administrator. *)
Example admin_password_hash :
  SHA256.hexdigest (SHA256.encode ("admin123" ++ "ims_secure_salt_2025"))
  = "cdb5ecd8c6849fec43f7fc150bf5e30a7628a8aa677c91771cdb42bd2813fabd"%string.
Proof. vm_compute. reflexivity. Qed.

(** The digests of the FIPS 180-4 sample messages. *)
Example sha256_abc :
  SHA256.hexdigest (SHA256.encode "abc")
  = "ba7816bf8f01cfea414140de5dae2223b00361a396177a9cb410ff61f20015ad"%string
  /\ SHA256.hexdigest
       (SHA256.encode
          "abcdbcdecdefdefgefghfghighijhijkijkljklmklmnlmnomnopnopq")
     = "248d6a61d20638b8e5c026930c3e6039a33ce45964ff2167f6ecedd419db06c1"%string.
Proof. split; vm_compute; reflexivity. Qed.


(** ** The product invariant *)

(** ** The product invariant *)

Section Invariant.

Lemma seed_keeps_products (now : string) (db : database) :
  products (snd (StorageManager._seed_admin_user now db)) = products db.
Proof.
  unfold StorageManager._seed_admin_user, SQL.insert_user.
  destruct (SQL.count_users db =? 0); [|reflexivity].
  destruct (existsb _ _); reflexivity.
Qed.

(** A call of [add_product] leaves the store as it was, or it found the
    SKU free and the numbers valid and appended one product row and
    one log entry. *)
Lemma add_product_cases (db : database) (sku name : string)
  (price : number) (category : string) (stock : Z)
  (description user : string) (clk : clock) :
  let db' := snd (ProductManager.add_product sku name price category
                    stock description user clk db) in
  db' = db
  \/ ((forall r, In r (rows (products db)) -> Product.sku r <> sku)
      /\ Number.lt0 price = false /\ 0 <= stock
      /\ exists real,
           Number.stored price = Some real
           /\ db' = snd (appended sku name real category stock description
                           user clk db)).
Proof.
  cbv zeta.
  destruct (hd_error (filter (fun r => Product.sku r =? sku)%string
                             (rows (products db)))) as [r|] eqn:Hsel.
  - left. unfold ProductManager.add_product, bind.
    rewrite get_product_by_sku_run, Hsel. reflexivity.
  - pose proof (select_by_sku_none db sku Hsel) as Hfree.
    rewrite (add_product_free db sku name price category stock description
               user clk Hfree).
    destruct (Number.lt0 price); [left; reflexivity|].
    destruct (Z.ltb_spec stock 0); [left; reflexivity|].
    destruct (binds (Num price) && int64 stock); [|left; reflexivity].
    destruct (Number.stored price) as [real|]; [|left; reflexivity].
    right. split; [exact Hfree|]. split; [reflexivity|].
    split; [assumption|]. exists real. split; reflexivity.
Qed.

Lemma invariant_after_call (c : call) (db : database) :
  product_invariant db -> product_invariant (after c db).
Proof.
  intros [Hnd Hall].
  destruct c as [sku name price category stock description user clk
                | | product_id | term].
  - cbn [after].
    destruct (add_product_cases db sku name price category stock
                description user clk)
      as [-> | (Hfree & Hp & Hs & real & Hreal & ->)];
      [split; assumption|].
    unfold product_invariant, appended. cbn [snd products rows]. split.
    + rewrite map_app. cbn [map Product.sku].
      apply (Permutation_NoDup (Permutation_cons_append _ _)).
      constructor; [|exact Hnd].
      intros Hin. apply in_map_iff in Hin.
      destruct Hin as (r0 & Hr0 & Hin0). exact (Hfree r0 Hin0 Hr0).
    + apply Forall_app. split; [exact Hall|].
      constructor; [|constructor]. cbn [Product.price Product.stock].
      split; [exact (stored_nonneg price real Hp Hreal) | exact Hs].
  - split; assumption.
  - cbn [after]. unfold ProductManager.get_product,
      StorageManager.get_product_by_id, StorageManager.execute_query, bind.
    destruct (forallb _ _); split; assumption.
  - cbn [after]. unfold ProductManager.search_products,
      StorageManager.search_products, StorageManager.execute_query.
    cbn [forallb binds andb].
    destruct (SQL.select_products_like _ db); split; assumption.
Qed.

End Invariant.

(** C6: in every store reached from a new one by calls of
    [ProductManager], the product rows have pairwise distinct SKUs and
    none has a negative price or a negative stock. *)
Theorem reachable_product_invariant (db : database) :
  reachable db -> product_invariant db.
Proof.
  induction 1 as [now | c db Hreach IH].
  - unfold StorageManager.__init__, product_invariant.
    rewrite seed_keeps_products. cbn. split; constructor.
  - apply invariant_after_call, IH.
Qed.

Lemma reachable_product_invariant_witness :
  reachable Sample.shop /\ product_invariant Sample.shop.
Proof.
  assert (H : reachable Sample.shop)
    by (repeat apply reachable_call; apply reachable_fresh).
  split; [exact H | exact (reachable_product_invariant Sample.shop H)].
Defined.

Example shop_rows :
  map (fun r => (Product.id r, Product.sku r, Product.name r))
      (rows (products Sample.shop))
  = [ (1, "LAPTOP001", "Gaming Laptop")%string;
      (2, "LAPTOP002", "Business Laptop")%string;
      (3, "CHAIR001", "Office Chair")%string ]
  /\ List.length (rows (logs Sample.shop)) = 3%nat.
Proof. vm_compute. split; reflexivity. Qed.

(** NaN is not below zero for Python; the [NOT NULL] column refuses it
    and the store stays as it was. *)
Example add_product_nan :
  ProductManager.add_product "NAN001" "Nan" NaN "Cat" 1 "" "system"
    (Sample.at_second "04") Sample.shop
  = (Raises
       (IntegrityError "NOT NULL constraint failed: products.price"),
     Sample.shop).
Proof. vm_compute. reflexivity. Qed.

(** ** Orders of the engine *)

Section Orders.

Lemma string_leb_trans (a b c : string) :
  String.leb a b = true -> String.leb b c = true -> String.leb a c = true.
Proof.
  unfold String.leb. revert b c.
  induction a as [|x a IH]; intros [|y b] [|z c]; simpl;
    try congruence; try (intros; reflexivity).
  unfold Ascii.compare.
  destruct (N.compare_spec (N_of_ascii x) (N_of_ascii y));
    destruct (N.compare_spec (N_of_ascii y) (N_of_ascii z));
    destruct (N.compare_spec (N_of_ascii x) (N_of_ascii z));
    try lia; try congruence; try (intros; reflexivity).
  apply IH.
Qed.

(** The rows of [ORDER BY name] ascend through the whole result. *)
Lemma order_by_name_sorted (l : list Product.row) :
  StronglySorted name_ascending (Engine.order_by SQL.by_name l).
Proof.
  apply Sorted_StronglySorted.
  - intros a b c. apply string_leb_trans.
  - apply order_by_Sorted. intros a b. apply String.leb_total.
Qed.

Lemma null_leb_total (a b : option string) :
  Engine.null_leb a b = true \/ Engine.null_leb b a = true.
Proof.
  destruct a as [x|], b as [y|]; simpl; auto. apply String.leb_total.
Qed.

Lemma null_leb_trans (a b c : option string) :
  Engine.null_leb a b = true -> Engine.null_leb b c = true ->
  Engine.null_leb a c = true.
Proof.
  destruct a as [x|], b as [y|], c as [z|]; simpl; try congruence.
  apply string_leb_trans.
Qed.

(** The rows of [ORDER BY timestamp DESC] descend through the whole
    result. *)
Lemma order_by_timestamp_sorted (l : list Log.row) :
  StronglySorted timestamp_descending
    (Engine.order_by SQL.by_timestamp_desc l).
Proof.
  apply Sorted_StronglySorted.
  - intros a b c Hab Hbc. unfold timestamp_descending in *.
    eapply null_leb_trans; eassumption.
  - apply order_by_Sorted. intros a b. apply null_leb_total.
Qed.

Lemma In_firstn {A : Type} (n : nat) (l : list A) (x : A) :
  In x (firstn n l) -> In x l.
Proof.
  intros H. rewrite <- (firstn_skipn n l). apply in_or_app. auto.
Qed.

Lemma In_limit {A : Type} (n : Z) (l : list A) (x : A) :
  In x (Engine.limit n l) -> In x l.
Proof.
  unfold Engine.limit. destruct (n <? 0); [auto | apply In_firstn].
Qed.

Lemma In_slice_to {A : Type} (n : Z) (l : list A) (x : A) :
  In x (slice_to n l) -> In x l.
Proof. unfold slice_to. destruct (n <? 0); apply In_firstn. Qed.

Lemma slice_to_length {A : Type} (n : Z) (l : list A) :
  n < 0 \/ Z.of_nat (List.length (slice_to n l)) <= n.
Proof.
  unfold slice_to. destruct (Z.ltb_spec n 0); [auto|]. right.
  pose proof (firstn_le_length (Z.to_nat n) l). lia.
Qed.

Lemma filter_Permutation {A : Type} (f : A -> bool) (l l' : list A) :
  Permutation l l' -> Permutation (filter f l) (filter f l').
Proof.
  induction 1 as [|x l l' H IH|x y l|l l' l'' H1 IH1 H2 IH2]; simpl.
  - constructor.
  - destruct (f x); auto.
  - destruct (f x), (f y); auto using perm_swap.
  - etransitivity; eassumption.
Qed.

Lemma StronglySorted_filter {A : Type} (R : A -> A -> Prop)
  (f : A -> bool) (l : list A) :
  StronglySorted R l -> StronglySorted R (filter f l).
Proof.
  induction 1 as [|x l Hs IH Hall]; simpl; [constructor|].
  destruct (f x); [|exact IH]. constructor; [exact IH|].
  apply Forall_forall. intros y Hy. apply filter_In in Hy.
  rewrite Forall_forall in Hall. apply Hall, Hy.
Qed.

Lemma StronglySorted_firstn {A : Type} (R : A -> A -> Prop) (n : nat)
  (l : list A) :
  StronglySorted R l -> StronglySorted R (firstn n l).
Proof.
  revert l. induction n as [|n IH]; intros l Hs; [constructor|].
  destruct l as [|x l]; [constructor|].
  inversion Hs as [|y l' Hs' Hall]; subst. simpl.
  constructor; [apply IH, Hs'|].
  apply Forall_forall. intros y Hy. rewrite Forall_forall in Hall.
  apply Hall. eapply In_firstn, Hy.
Qed.

End Orders.

(** ** Filtered views of the log *)

Section LogViews.

(** [get_logs] binds its limit, then reads. *)
Lemma get_logs_run (db : database) (limit : Z) :
  StorageManager.get_logs limit db
  = if int64 limit then
      (Returns
         (Engine.limit limit
            (Engine.order_by SQL.by_timestamp_desc (rows (logs db)))),
       db)
    else (Raises StorageManager.unbound, db).
Proof.
  unfold StorageManager.get_logs, StorageManager.execute_query,
    SQL.select_logs.
  cbn [forallb]. change (binds (Num (Whole limit))) with (int64 limit).
  rewrite andb_true_r. reflexivity.
Qed.

(** The first [n] rows of [ORDER BY timestamp DESC] are the [n] most
    recent entries. *)
Lemma most_recent_first (n : nat) (l : list Log.row) :
  most_recent n l (firstn n (Engine.order_by SQL.by_timestamp_desc l)).
Proof.
  exists (skipn n (Engine.order_by SQL.by_timestamp_desc l)).
  rewrite firstn_skipn. split; [apply order_by_Permutation|].
  split; [apply order_by_timestamp_sorted|].
  rewrite length_firstn.
  rewrite (Permutation_length (order_by_Permutation _ l)). reflexivity.
Qed.

(** Both filtered views, for a limit whose double is bound: the window
    of [2 * L] recent rows, the filter, the cut at [L]. *)
Lemma filtered_logs (hit : Log.row -> bool) (L : Z) (db : database) :
  0 <= L < 2 ^ 62 ->
  (all_logs <- LogManager.get_recent_logs (L * 2) ;;
   ret (slice_to L (filter hit all_logs))) db
  = (Returns
       (firstn (Z.to_nat L)
          (filter hit
             (firstn (Z.to_nat (2 * L))
                (Engine.order_by SQL.by_timestamp_desc (rows (logs db)))))),
     db).
Proof.
  intros HL. unfold bind, LogManager.get_recent_logs.
  rewrite get_logs_run.
  assert (Hint : int64 (L * 2) = true) by (apply int64_spec; lia).
  rewrite Hint. unfold ret, slice_to, Engine.limit.
  destruct (Z.ltb_spec (L * 2) 0); [lia|].
  destruct (Z.ltb_spec L 0); [lia|].
  replace (L * 2) with (2 * L) by lia. reflexivity.
Qed.

(** A limit whose double is not bound. *)
Lemma filtered_logs_unbound (hit : Log.row -> bool) (L : Z)
  (db : database) :
  int64 (L * 2) = false ->
  (all_logs <- LogManager.get_recent_logs (L * 2) ;;
   ret (slice_to L (filter hit all_logs))) db
  = (Raises StorageManager.unbound, db).
Proof.
  intros Hint. unfold bind, LogManager.get_recent_logs.
  rewrite get_logs_run, Hint. reflexivity.
Qed.

End LogViews.

(** C7, as stated, fails: with the limit [2^62] the double of the limit
    does not fit the engine's integers, and [get_logs_by_user] raises
    [OverflowError] where the claim has it return a list. *)
Lemma get_logs_by_user_window_counterexample :
  ~ (forall (db : database) (u : string) (L : Z),
        0 <= L ->
        exists (hit : Log.row -> bool) (recent : list Log.row),
          (forall r, hit r = true <-> Log.user r = u)
          /\ most_recent (Z.to_nat (2 * L)) (rows (logs db)) recent
          /\ LogManager.get_logs_by_user u L db
             = (Returns (firstn (Z.to_nat L) (filter hit recent)), db)).
Proof.
  intros H.
  destruct (H Sample.audit "alice"%string (2 ^ 62))
    as (hit & recent & _ & _ & Hrun); [lia|].
  assert (Hraise : LogManager.get_logs_by_user "alice" (2 ^ 62)
                     Sample.audit
                   = (Raises StorageManager.unbound, Sample.audit))
    by (vm_compute; reflexivity).
  rewrite Hraise in Hrun. discriminate Hrun.
Qed.

(** C7, amended: for a limit [L] with [0 <= L < 2^62],
    [get_logs_by_user u L] is the first [L] of the entries with user
    exactly [u] among the [2 * L] most recent entries, timestamp
    descending; and there is a log in which more than [L] entries of [u]
    exist while the call returns fewer than [L]. *)
Theorem get_logs_by_user_window :
  (forall (db : database) (u : string) (L : Z),
      0 <= L < 2 ^ 62 ->
      exists (hit : Log.row -> bool) (recent : list Log.row),
        (forall r, hit r = true <-> Log.user r = u)
        /\ most_recent (Z.to_nat (2 * L)) (rows (logs db)) recent
        /\ LogManager.get_logs_by_user u L db
           = (Returns (firstn (Z.to_nat L) (filter hit recent)), db))
  /\ exists (db : database) (u : string) (L : Z) (result : list Log.row),
       0 <= L < 2 ^ 62
       /\ LogManager.get_logs_by_user u L db = (Returns result, db)
       /\ Z.of_nat (List.length result) < L
       /\ L < Z.of_nat
                (List.length
                   (filter (fun r => Log.user r =? u)%string
                           (rows (logs db)))).
Proof.
  split.
  - intros db u L HL. exists (fun r => Log.user r =? u)%string.
    eexists. split; [intros r; apply String.eqb_eq|].
    split; [apply most_recent_first|].
    unfold LogManager.get_logs_by_user.
    apply (filtered_logs (fun r => Log.user r =? u)%string L db HL).
  - exists Sample.audit_tail, "alice"%string, 1, [].
    split; [lia|]. vm_compute. repeat split; reflexivity.
Qed.

Lemma get_logs_by_user_window_witness :
  0 <= 100 < 2 ^ 62
  /\ exists (hit : Log.row -> bool) (recent : list Log.row),
       (forall r, hit r = true <-> Log.user r = "alice"%string)
       /\ most_recent (Z.to_nat (2 * 100)) (rows (logs Sample.audit)) recent
       /\ LogManager.get_logs_by_user "alice" 100 Sample.audit
          = (Returns (firstn (Z.to_nat 100) (filter hit recent)),
             Sample.audit).
Proof.
  assert (H : 0 <= 100 < 2 ^ 62) by lia.
  split; [exact H|].
  exact (proj1 get_logs_by_user_window Sample.audit "alice"%string 100 H).
Defined.

(** C8, as stated, fails: with the limit [2^62] the double of the limit
    does not fit the engine's integers, and [get_logs_by_action] raises
    [OverflowError] where the claim has it return a list. *)
Lemma get_logs_by_action_window_counterexample :
  ~ (forall (lower : string -> string) (db : database) (a : string)
       (L : Z),
        0 <= L ->
        exists (hit : Log.row -> bool) (recent : list Log.row),
          (forall r, hit r = true
                     <-> Str.occurs_in (lower a) (lower (Log.action r)))
          /\ most_recent (Z.to_nat (2 * L)) (rows (logs db)) recent
          /\ LogManager.get_logs_by_action lower a L db
             = (Returns (firstn (Z.to_nat L) (filter hit recent)), db)).
Proof.
  intros H.
  destruct (H Str.lower Sample.audit "add"%string (2 ^ 62))
    as (hit & recent & _ & _ & Hrun); [lia|].
  assert (Hraise : LogManager.get_logs_by_action Str.lower "add" (2 ^ 62)
                     Sample.audit
                   = (Raises StorageManager.unbound, Sample.audit))
    by (vm_compute; reflexivity).
  rewrite Hraise in Hrun. discriminate Hrun.
Qed.

(** C8, amended: for a limit [L] with [0 <= L < 2^62],
    [get_logs_by_action a L] is the first [L] of the entries whose
    action, put in lower case by [str.lower], contains [a] put in lower
    case, among the [2 * L] most recent entries, timestamp descending. *)
Theorem get_logs_by_action_window (lower : string -> string)
  (db : database) (a : string) (L : Z) :
  0 <= L < 2 ^ 62 ->
  exists (hit : Log.row -> bool) (recent : list Log.row),
    (forall r, hit r = true
               <-> Str.occurs_in (lower a) (lower (Log.action r)))
    /\ most_recent (Z.to_nat (2 * L)) (rows (logs db)) recent
    /\ LogManager.get_logs_by_action lower a L db
       = (Returns (firstn (Z.to_nat L) (filter hit recent)), db).
Proof.
  intros HL.
  exists (fun r => Str.contains (lower a) (lower (Log.action r))).
  eexists. split; [intros r; apply contains_spec|].
  split; [apply most_recent_first|].
  unfold LogManager.get_logs_by_action.
  apply (filtered_logs
           (fun r => Str.contains (lower a) (lower (Log.action r)))
           L db HL).
Qed.

Lemma get_logs_by_action_window_witness :
  0 <= 100 < 2 ^ 62
  /\ exists (hit : Log.row -> bool) (recent : list Log.row),
       (forall r, hit r = true
                  <-> Str.occurs_in (Str.lower "add_prod")
                        (Str.lower (Log.action r)))
       /\ most_recent (Z.to_nat (2 * 100)) (rows (logs Sample.audit)) recent
       /\ LogManager.get_logs_by_action Str.lower "add_prod" 100
            Sample.audit
          = (Returns (firstn (Z.to_nat 100) (filter hit recent)),
             Sample.audit).
Proof.
  assert (H : 0 <= 100 < 2 ^ 62) by lia.
  split; [exact H|].
  exact (get_logs_by_action_window Str.lower Sample.audit
           "add_prod"%string 100 H).
Defined.

(** The test of the repository: two entries of alice and one of bob. *)
Example get_logs_by_user_alice :
  exists e1 e2,
    LogManager.get_logs_by_user "alice" 100 Sample.audit
    = (Returns [e1; e2], Sample.audit)
    /\ (Log.user e1, Log.action e1) = ("alice", "ADD_PRODUCT")%string
    /\ (Log.user e2, Log.action e2) = ("alice", "LOGIN")%string.
Proof. eexists _, _. vm_compute. repeat split. Qed.

(** On ASCII text [str.lower] folds the letters [A-Z]. *)
Example get_logs_by_action_mixed_case :
  exists e,
    LogManager.get_logs_by_action Str.lower "add_prod" 100 Sample.audit
    = (Returns [e], Sample.audit)
    /\ Log.action e = "ADD_PRODUCT"%string.
Proof. eexists. vm_compute. repeat split. Qed.

(** A negative limit is no limit for the engine and counts from the end
    for the slice. *)
Example get_logs_by_user_negative_limit :
  exists e,
    LogManager.get_logs_by_user "alice" (-1) Sample.audit
    = (Returns [e], Sample.audit)
    /\ Log.action e = "ADD_PRODUCT"%string.
Proof. eexists. vm_compute. repeat split. Qed.

(** ** Product search *)

Section Search.

Lemma filter_ext_iff {A : Type} (f g : A -> bool) (l : list A) :
  (forall x, f x = true <-> g x = true) -> filter f l = filter g l.
Proof.
  intros H. apply filter_ext. intros x.
  destruct (f x) eqn:Hf, (g x) eqn:Hg; try reflexivity.
  - apply H in Hf. congruence.
  - apply H in Hg. congruence.
Qed.

Lemma filter_all {A : Type} (f : A -> bool) (l : list A) :
  (forall x, f x = true) -> filter f l = l.
Proof.
  intros H. induction l as [|x l IH]; simpl; [reflexivity|].
  rewrite H, IH. reflexivity.
Qed.

Lemma not_occurs_in (t s : string) :
  Str.contains t s = false -> ~ Str.occurs_in t s.
Proof. intros H Ho. apply contains_spec in Ho. congruence. Qed.

Lemma not_occurs_in_nocase (t s : string) :
  Str.contains (Str.lower t) (Str.lower s) = false ->
  ~ Str.occurs_in_nocase t s.
Proof. intros H Ho. apply contains_lower_spec in Ho. congruence. Qed.

Lemma search_hit_spec (term : string) (r : Product.row) :
  search_hit term r = true
  <-> product_matches occurs_in_column term r.
Proof.
  unfold search_hit, product_matches, occurs_in_column.
  rewrite !orb_true_iff, !contains_lower_spec.
  destruct (Product.category r) as [c|].
  - rewrite contains_lower_spec. split.
    + intros [[H|H]|H]; eauto.
    + intros [H|[H|(c' & [= <-] & H)]]; auto.
  - split.
    + intros [[H|H]|H]; [auto | auto | discriminate].
    + intros [H|[H|(c' & Hc & _)]]; [auto | auto | discriminate].
Qed.

(** The [WHERE] condition built from a term without metacharacters. *)
Lemma where_like_plain (term : string) (r : Product.row) :
  Str.plain term = true ->
  SQL.where_like ("%" ++ term ++ "%") r = search_hit term r.
Proof.
  intros Hp. unfold SQL.where_like, search_hit.
  rewrite !(like_substring term _ Hp).
  destruct (Product.category r) as [c|]; cbn [Engine.null_like];
    [rewrite (like_substring term c Hp)|]; reflexivity.
Qed.

(** The search, check by check. *)
Lemma search_products_run (db : database) (term : string) :
  StorageManager.search_products term db
  = match rows (products db) with
    | [] => (Returns [], db)
    | _ :: _ =>
        if Str.like_pattern_limit
           <? Z.of_nat (String.length ("%" ++ term ++ "%"))
        then
          (Raises (OperationalError "LIKE or GLOB pattern too complex"),
           db)
        else
          (Returns
             (Engine.order_by SQL.by_name
                (filter (SQL.where_like ("%" ++ term ++ "%"))
                        (rows (products db)))),
           db)
    end.
Proof.
  unfold StorageManager.search_products, StorageManager.execute_query,
    SQL.select_products_like.
  cbn [forallb binds andb].
  destruct (rows (products db)); [reflexivity|].
  destruct (_ <? _); reflexivity.
Qed.

Lemma pattern_length (term : string) :
  Z.of_nat (String.length ("%" ++ term ++ "%"))
  = Z.of_nat (String.length term) + 2.
Proof.
  change ("%" ++ term ++ "%")%string
    with (String "%" (term ++ "%"))%string.
  cbn [String.length]. rewrite length_append. cbn [String.length]. lia.
Qed.

(** The search for a term within the pattern limit. *)
Lemma search_products_short (db : database) (term : string) :
  Z.of_nat (String.length term) <= 49998 ->
  StorageManager.search_products term db
  = (Returns
       (Engine.order_by SQL.by_name
          (filter (SQL.where_like ("%" ++ term ++ "%"))
                  (rows (products db)))),
     db).
Proof.
  intros Hlen. rewrite search_products_run, pattern_length.
  unfold Str.like_pattern_limit.
  destruct (rows (products db)); [reflexivity|].
  destruct (Z.ltb_spec 50000 (Z.of_nat (String.length term) + 2));
    [lia | reflexivity].
Qed.

End Search.

(** C9, as stated, fails: the term [%] is in no name, SKU or category
    of the sample shop, and the search returns its products all the
    same. *)
Lemma search_products_counterexample :
  ~ (forall (db : database) (term : string) (result : list Product.row)
       (r : Product.row),
        StorageManager.search_products term db = (Returns result, db) ->
        In r result ->
        product_matches Str.occurs_in_nocase term r).
Proof.
  intros H.
  assert (Hrun : exists r l,
             StorageManager.search_products "%" Sample.shop
             = (Returns (r :: l), Sample.shop)
             /\ Str.contains (Str.lower "%") (Str.lower (Product.name r))
                = false
             /\ Str.contains (Str.lower "%") (Str.lower (Product.sku r))
                = false
             /\ Product.category r = Some "Electronics"%string).
  { eexists _, _. vm_compute. repeat split. }
  destruct Hrun as (r & l & Hrun & Hn & Hs & Hc).
  destruct (H _ _ _ r Hrun (or_introl eq_refl))
    as [Hm | [Hm | (c & Hc' & Hm)]].
  - exact (not_occurs_in_nocase _ _ Hn Hm).
  - exact (not_occurs_in_nocase _ _ Hs Hm).
  - rewrite Hc in Hc'. injection Hc' as <-.
    revert Hm. apply not_occurs_in_nocase. reflexivity.
Qed.

(** C9, amended: for a term of at most 49998 bytes without the
    characters [%], [_] and NUL, the search returns exactly the products
    in whose name, SKU or category, each read up to its first NUL, the
    term appears up to the case of the letters [A-Z], each once per
    stored row, in ascending order of name. *)
Theorem search_products_plain (db : database) (term : string) :
  Str.plain term = true ->
  Z.of_nat (String.length term) <= 49998 ->
  exists (hit : Product.row -> bool) (result : list Product.row),
    (forall r, hit r = true
               <-> product_matches occurs_in_column term r)
    /\ StorageManager.search_products term db = (Returns result, db)
    /\ ProductManager.search_products term db = (Returns result, db)
    /\ Permutation result (filter hit (rows (products db)))
    /\ StronglySorted name_ascending result.
Proof.
  intros Hp Hlen. exists (search_hit term).
  eexists. split; [apply search_hit_spec|].
  split; [apply (search_products_short db term Hlen)|].
  split; [apply (search_products_short db term Hlen)|].
  split.
  - rewrite order_by_Permutation.
    erewrite filter_ext; [reflexivity|].
    intros r. apply (where_like_plain term r Hp).
  - apply order_by_name_sorted.
Qed.

Lemma search_products_plain_witness :
  Str.plain "Laptop" = true
  /\ Z.of_nat (String.length "Laptop") <= 49998
  /\ exists (hit : Product.row -> bool) (result : list Product.row),
       (forall r, hit r = true
                  <-> product_matches occurs_in_column "Laptop" r)
       /\ StorageManager.search_products "Laptop" Sample.shop
          = (Returns result, Sample.shop)
       /\ ProductManager.search_products "Laptop" Sample.shop
          = (Returns result, Sample.shop)
       /\ Permutation result (filter hit (rows (products Sample.shop)))
       /\ StronglySorted name_ascending result.
Proof.
  assert (H : Z.of_nat (String.length "Laptop") <= 49998)
    by (intro Hgt; discriminate Hgt).
  split; [reflexivity|]. split; [exact H|].
  exact (search_products_plain Sample.shop "Laptop" eq_refl H).
Defined.

(** The test of the repository: the two laptops, in name order. *)
Example search_products_laptop :
  exists result,
    ProductManager.search_products "Laptop" Sample.shop
    = (Returns result, Sample.shop)
    /\ map Product.name result
       = ["Business Laptop"; "Gaming Laptop"]%string
    /\ map Product.sku result = ["LAPTOP002"; "LAPTOP001"]%string.
Proof. eexists. vm_compute. repeat split. Qed.

(** The engine folds the case of ASCII letters. *)
Example search_products_lower_case :
  exists result,
    ProductManager.search_products "laptop" Sample.shop
    = (Returns result, Sample.shop)
    /\ map Product.name result
       = ["Business Laptop"; "Gaming Laptop"]%string.
Proof. eexists. vm_compute. repeat split. Qed.

(** LIKE reads the pattern and the column up to the first NUL, and [_]
    stands for one character, of one byte or of several. *)
Example like_reading :
  Str.like (String "%" (String Str.nul "zz%")) "Office Chair" = true
  /\ Str.like "%cd%" (String "a" (String "b" (String Str.nul "cd")))
     = false
  /\ Str.like "caf_"
       (String "c" (String "a" (String "f"
          (String (ascii_of_nat 195) (String (ascii_of_nat 169) "")))))
     = true.
Proof. vm_compute. repeat split. Qed.

(** C10: the term [%] makes the search return every product of the
    store, whatever the store; in the sample shop these are products
    whose name, SKU and category do not contain the character. *)
Theorem search_products_wildcard :
  (forall db : database,
      exists result,
        StorageManager.search_products "%" db = (Returns result, db)
        /\ Permutation result (rows (products db)))
  /\ exists (db : database) (result : list Product.row) (r : Product.row),
       StorageManager.search_products "%" db = (Returns result, db)
       /\ In r result
       /\ ~ product_matches Str.occurs_in "%" r.
Proof.
  split.
  - intros db. eexists. split.
    + apply search_products_short. intro Hgt. discriminate Hgt.
    + rewrite order_by_Permutation, filter_all; [reflexivity|].
      intros r. reflexivity.
  - assert (Hrun : exists r l,
               StorageManager.search_products "%" Sample.shop
               = (Returns (r :: l), Sample.shop)
               /\ Str.contains "%" (Product.name r) = false
               /\ Str.contains "%" (Product.sku r) = false
               /\ Product.category r = Some "Electronics"%string).
    { eexists _, _. vm_compute. repeat split. }
    destruct Hrun as (r & l & Hrun & Hn & Hs & Hc).
    exists Sample.shop, (r :: l), r.
    split; [exact Hrun|]. split; [left; reflexivity|].
    intros [H | [H | (c & Hc' & H)]].
    + exact (not_occurs_in _ _ Hn H).
    + exact (not_occurs_in _ _ Hs H).
    + rewrite Hc in Hc'. injection Hc' as <-.
      revert H. apply not_occurs_in. reflexivity.
Qed.

(** ** Storage: insertion and lookup of products *)

Section StorageProducts.

Lemma fold_max_ge (ids : list Z) :
  0 <= fold_right Z.max 0 ids
  /\ Forall (fun i => i <= fold_right Z.max 0 ids) ids.
Proof.
  induction ids as [|i ids [IH0 IH]]; simpl; [split; [lia | constructor]|].
  split; [lia|]. constructor; [lia|].
  eapply Forall_impl; [|exact IH]. cbv beta. intros. lia.
Qed.

(** A fresh rowid exceeds the rowids present and the counter. *)
Lemma next_rowid_fresh (ids : list Z) (seq : Z) :
  Forall (fun i => i < Engine.next_rowid ids seq) ids
  /\ seq < Engine.next_rowid ids seq
  /\ 0 < Engine.next_rowid ids seq.
Proof.
  unfold Engine.next_rowid. destruct (fold_max_ge ids) as [H0 H].
  split; [|lia].
  eapply Forall_impl; [|exact H]. cbv beta. intros. lia.
Qed.

Lemma hd_error_filter_None {A : Type} (f : A -> bool) (l : list A) :
  hd_error (filter f l) = None <-> forall x, In x l -> f x = false.
Proof.
  split.
  - intros H x Hin. destruct (f x) eqn:Hx; [|reflexivity].
    assert (Hf : In x (filter f l)) by (apply filter_In; auto).
    destruct (filter f l); [destruct Hf | discriminate].
  - intros H. rewrite (filter_none f l H). reflexivity.
Qed.

Lemma hd_error_filter_Some {A : Type} (f : A -> bool) (l : list A) (x : A) :
  hd_error (filter f l) = Some x -> In x l /\ f x = true.
Proof.
  intros H. apply filter_In. destruct (filter f l); [discriminate|].
  injection H as ->. left. reflexivity.
Qed.

(** In a list without two elements of the same key, the filter on the
    key of an element yields that element alone. *)
Lemma filter_unique_key {A K : Type} (key : A -> K) (eqb : K -> K -> bool)
  (l : list A) (x : A) :
  (forall a b, eqb a b = true <-> a = b) ->
  NoDup (map key l) -> In x l ->
  filter (fun y => eqb (key y) (key x)) l = [x].
Proof.
  intros Heqb. induction l as [|y l IH]; intros Hnd Hin; [destruct Hin|].
  simpl in Hnd. inversion Hnd as [|k ks Hnotin Hnd']; subst.
  destruct Hin as [-> | Hin]; simpl.
  - rewrite (proj2 (Heqb _ _) eq_refl). f_equal.
    apply filter_none. intros z Hz.
    destruct (eqb (key z) (key x)) eqn:E; [|reflexivity].
    apply Heqb in E. destruct Hnotin. rewrite <- E. apply in_map, Hz.
  - destruct (eqb (key y) (key x)) eqn:E.
    + apply Heqb in E. destruct Hnotin. rewrite E. apply in_map, Hin.
    + apply IH; assumption.
Qed.

Lemma get_product_by_id_run (db : database) (product_id : Z) :
  StorageManager.get_product_by_id product_id db
  = if int64 product_id then
      (Returns
         (hd_error (filter (fun r => Product.id r =? product_id)
                           (rows (products db)))),
       db)
    else (Raises StorageManager.unbound, db).
Proof.
  unfold StorageManager.get_product_by_id, StorageManager.execute_query,
    SQL.select_product_by_id, bind.
  cbn [forallb].
  change (binds (Num (Whole product_id))) with (int64 product_id).
  rewrite andb_true_r. destruct (int64 product_id); reflexivity.
Qed.

End StorageProducts.







(** X4: for an id within 64 bits, [get_product_by_id], and
    [ProductManager.get_product] which forwards to it, do not raise and
    do not write; they return [None] exactly when no row has the id,
    and a row they return is a row of the table with that id. *)
Theorem get_product_by_id_result (db : database) (product_id : Z) :
  - 2 ^ 63 <= product_id < 2 ^ 63 ->
  exists o,
    StorageManager.get_product_by_id product_id db = (Returns o, db)
    /\ ProductManager.get_product product_id db = (Returns o, db)
    /\ (o = None
        <-> forall r, In r (rows (products db)) ->
                      Product.id r <> product_id)
    /\ (forall r, o = Some r ->
                  In r (rows (products db)) /\ Product.id r = product_id).
Proof.
  intros Hid.
  assert (Hrun : StorageManager.get_product_by_id product_id db
                 = (Returns
                      (hd_error
                         (filter (fun r => Product.id r =? product_id)
                                 (rows (products db)))),
                    db)).
  { rewrite get_product_by_id_run, (proj2 (int64_spec _) Hid).
    reflexivity. }
  eexists. split; [exact Hrun|]. split; [exact Hrun|]. split.
  - rewrite hd_error_filter_None. split; intros H r Hin.
    + apply Z.eqb_neq, H, Hin.
    + apply Z.eqb_neq, H, Hin.
  - intros r Hr. apply hd_error_filter_Some in Hr.
    destruct Hr as [Hin Hr]. apply Z.eqb_eq in Hr. auto.
Qed.

Lemma get_product_by_id_result_witness :
  - 2 ^ 63 <= 99999 < 2 ^ 63
  /\ exists o,
       StorageManager.get_product_by_id 99999 Sample.shop
       = (Returns o, Sample.shop)
       /\ ProductManager.get_product 99999 Sample.shop
          = (Returns o, Sample.shop)
       /\ (o = None
           <-> forall r, In r (rows (products Sample.shop)) ->
                         Product.id r <> 99999)
       /\ (forall r, o = Some r ->
                     In r (rows (products Sample.shop))
                     /\ Product.id r = 99999).
Proof.
  assert (H : - 2 ^ 63 <= 99999 < 2 ^ 63) by lia.
  split; [exact H|].
  exact (get_product_by_id_result Sample.shop 99999 H).
Defined.

(** An id beyond 64 bits is refused when it is bound. *)
Example get_product_by_id_unbound :
  StorageManager.get_product_by_id (2 ^ 63) Sample.shop
  = (Raises StorageManager.unbound, Sample.shop).
Proof. vm_compute. reflexivity. Qed.

(** X5: in a table whose SKUs are pairwise distinct, every stored
    product is what [get_product_by_sku] returns for its SKU. *)
Theorem get_product_by_sku_stored (db : database) (r : Product.row) :
  NoDup (map Product.sku (rows (products db))) ->
  In r (rows (products db)) ->
  StorageManager.get_product_by_sku (Product.sku r) db
  = (Returns (Some r), db).
Proof.
  intros Hnd Hin. rewrite get_product_by_sku_run.
  rewrite (filter_unique_key Product.sku String.eqb _ r String.eqb_eq Hnd Hin).
  reflexivity.
Qed.

Lemma get_product_by_sku_stored_witness :
  NoDup (map Product.sku (rows (products Sample.shop)))
  /\ In (Product.Row 2 "LAPTOP002" "Business Laptop" (99999 # 100)
           (Some "Electronics") 15 (Some "") (Some "2025-10-31 12:00:02")
           (Some "2025-10-31 12:00:02"))
        (rows (products Sample.shop))
  /\ StorageManager.get_product_by_sku "LAPTOP002" Sample.shop
     = (Returns
          (Some (Product.Row 2 "LAPTOP002" "Business Laptop" (99999 # 100)
                   (Some "Electronics") 15 (Some "")
                   (Some "2025-10-31 12:00:02")
                   (Some "2025-10-31 12:00:02"))),
        Sample.shop).
Proof.
  assert (H1 : NoDup (map Product.sku (rows (products Sample.shop)))).
  { vm_compute. repeat constructor; simpl; intuition discriminate. }
  assert (H2 : In (Product.Row 2 "LAPTOP002" "Business Laptop"
                     (99999 # 100) (Some "Electronics") 15 (Some "")
                     (Some "2025-10-31 12:00:02")
                     (Some "2025-10-31 12:00:02"))
                  (rows (products Sample.shop)))
    by (right; left; reflexivity).
  split; [exact H1|]. split; [exact H2|].
  exact (get_product_by_sku_stored Sample.shop _ H1 H2).
Defined.

(** X6: [get_all_products], in [StorageManager] and in
    [ProductManager], never raises and never writes; it returns every
    row of the products table, each once per stored row, in ascending
    order of name. *)
Theorem get_all_products_sorted (db : database) :
  exists result,
    StorageManager.get_all_products db = (Returns result, db)
    /\ ProductManager.get_all_products db = (Returns result, db)
    /\ Permutation result (rows (products db))
    /\ StronglySorted name_ascending result.
Proof.
  eexists. split; [reflexivity|]. split; [reflexivity|]. split.
  - apply order_by_Permutation.
  - apply order_by_name_sorted.
Qed.

(** ** Search: every term *)
(** ** Search: every term *)

Section SearchAnyTerm.


End SearchAnyTerm.

(** X7: the search for the empty term is [get_all_products]: every
    product, in ascending order of name. *)
Theorem search_products_empty_term (db : database) :
  StorageManager.search_products "" db = StorageManager.get_all_products db
  /\ ProductManager.search_products "" db
     = ProductManager.get_all_products db.
Proof.
  assert (H : StorageManager.search_products "" db
              = StorageManager.get_all_products db).
  { rewrite search_products_short by (intro Hgt; discriminate Hgt).
    rewrite filter_all; [reflexivity|].
    intros r. reflexivity. }
  split; exact H.
Qed.



(** X9: the search does not depend on the case of the ASCII letters of
    the term: the term with its letters [A-Z] put in lower case has the
    outcome of the term. *)
Theorem search_products_term_case (db : database) (term : string) :
  StorageManager.search_products (Str.lower term) db
  = StorageManager.search_products term db.
Proof.
  rewrite !search_products_run, !pattern_length, length_lower.
  change ("%" ++ Str.lower term ++ "%")%string
    with (String "%" (Str.lower term ++ "%"))%string.
  change ("%" ++ term ++ "%")%string with (String "%" (term ++ "%"))%string.
  assert (Hp : String "%" (Str.lower term ++ "%")
               = Str.lower (String "%" (term ++ "%"))).
  { cbn [Str.lower]. rewrite lower_append. reflexivity. }
  rewrite Hp.
  destruct (rows (products db)) as [|r0 l]; [reflexivity|].
  destruct (_ <? _); [reflexivity|].
  do 3 f_equal. apply filter_ext. intros r. unfold SQL.where_like.
  rewrite !like_lower_pattern.
  destruct (Product.category r); cbn [Engine.null_like];
    rewrite ?like_lower_pattern; reflexivity.
Qed.

(** ** The log: writing and reading *)



(** X11: for a limit [L] with [0 <= L < 2^63], [get_logs], and
    [get_recent_logs] which forwards to it, return the head of the log
    sorted by descending timestamp: [min L n] entries of the [n] stored,
    none of them older than an entry left out. *)
Theorem get_logs_most_recent (db : database) (L : Z) :
  0 <= L < 2 ^ 63 ->
  exists result rest,
    StorageManager.get_logs L db = (Returns result, db)
    /\ LogManager.get_recent_logs L db = (Returns result, db)
    /\ Permutation (result ++ rest) (rows (logs db))
    /\ StronglySorted timestamp_descending (result ++ rest)
    /\ List.length result
       = Nat.min (Z.to_nat L) (List.length (rows (logs db))).
Proof.
  intros HL.
  destruct (most_recent_first (Z.to_nat L) (rows (logs db)))
    as (rest & Hperm & Hsorted & Hlen).
  assert (Hrun : StorageManager.get_logs L db
                 = (Returns (firstn (Z.to_nat L)
                               (Engine.order_by SQL.by_timestamp_desc
                                  (rows (logs db)))), db)).
  { rewrite get_logs_run.
    assert (Hint : int64 L = true) by (apply int64_spec; lia).
    rewrite Hint. unfold Engine.limit.
    destruct (Z.ltb_spec L 0); [lia | reflexivity]. }
  eexists _, rest.
  split; [exact Hrun|]. split; [exact Hrun|].
  split; [exact Hperm|]. split; [exact Hsorted | exact Hlen].
Qed.

Lemma get_logs_most_recent_witness :
  0 <= 10 < 2 ^ 63
  /\ exists result rest,
       StorageManager.get_logs 10 Sample.audit
       = (Returns result, Sample.audit)
       /\ LogManager.get_recent_logs 10 Sample.audit
          = (Returns result, Sample.audit)
       /\ Permutation (result ++ rest) (rows (logs Sample.audit))
       /\ StronglySorted timestamp_descending (result ++ rest)
       /\ List.length result
          = Nat.min (Z.to_nat 10) (List.length (rows (logs Sample.audit))).
Proof.
  assert (H : 0 <= 10 < 2 ^ 63) by lia.
  split; [exact H|].
  exact (get_logs_most_recent Sample.audit 10 H).
Defined.

(** X12: a negative limit, down to [-2^63], is no limit: [get_logs]
    then returns every entry of the log, by descending timestamp. *)
Theorem get_logs_negative_limit (db : database) (limit : Z) :
  - 2 ^ 63 <= limit < 0 ->
  exists result,
    StorageManager.get_logs limit db = (Returns result, db)
    /\ Permutation result (rows (logs db))
    /\ StronglySorted timestamp_descending result.
Proof.
  intros Hneg.
  exists (Engine.order_by SQL.by_timestamp_desc (rows (logs db))).
  split; [|split; [apply order_by_Permutation
                  | apply order_by_timestamp_sorted]].
  rewrite get_logs_run.
  assert (Hint : int64 limit = true) by (apply int64_spec; lia).
  rewrite Hint. unfold Engine.limit.
  destruct (Z.ltb_spec limit 0); [reflexivity | lia].
Qed.

Lemma get_logs_negative_limit_witness :
  - 2 ^ 63 <= -1 < 0
  /\ exists result,
       StorageManager.get_logs (-1) Sample.audit
       = (Returns result, Sample.audit)
       /\ Permutation result (rows (logs Sample.audit))
       /\ StronglySorted timestamp_descending result.
Proof.
  assert (H : - 2 ^ 63 <= -1 < 0) by lia.
  split; [exact H|].
  exact (get_logs_negative_limit Sample.audit (-1) H).
Defined.

(** A limit beyond 64 bits is refused when it is bound. *)
Example get_logs_unbound :
  StorageManager.get_logs (2 ^ 63) Sample.audit
  = (Raises StorageManager.unbound, Sample.audit)
  /\ StorageManager.get_logs (- 2 ^ 63 - 1) Sample.audit
     = (Raises StorageManager.unbound, Sample.audit).
Proof. split; vm_compute; reflexivity. Qed.

Section FilteredViews.

(** The filtered views for a limit whose double is bound, negative
    ones included. *)
Lemma filtered_logs_sound (hit : Log.row -> bool) (limit : Z)
  (db : database) :
  - 2 ^ 62 <= limit < 2 ^ 62 ->
  exists result,
    (all_logs <- LogManager.get_recent_logs (limit * 2) ;;
     ret (slice_to limit (filter hit all_logs))) db
    = (Returns result, db)
    /\ (forall e, In e result -> In e (rows (logs db)) /\ hit e = true)
    /\ StronglySorted timestamp_descending result
    /\ (limit < 0 \/ Z.of_nat (List.length result) <= limit).
Proof.
  intros Hlimit. unfold bind, LogManager.get_recent_logs.
  rewrite get_logs_run.
  assert (Hint : int64 (limit * 2) = true) by (apply int64_spec; lia).
  rewrite Hint. eexists. split; [reflexivity|]. split; [|split].
  - intros e He. apply In_slice_to, filter_In in He. destruct He as [He Hu].
    apply In_limit, order_by_In in He. auto.
  - unfold slice_to, Engine.limit.
    destruct (limit <? 0), (limit * 2 <? 0);
      repeat first [ apply StronglySorted_firstn
                   | apply StronglySorted_filter ];
      apply order_by_timestamp_sorted.
  - apply slice_to_length.
Qed.

End FilteredViews.

(** X13: for a limit from [-2^62] up to, not including, [2^62],
    negative ones included, [get_logs_by_user] does not raise and does
    not write; every entry it returns is a stored entry of that very
    user, they come by descending timestamp, and a limit that is not
    negative bounds their number. *)
Theorem get_logs_by_user_sound (db : database) (username : string)
  (limit : Z) :
  - 2 ^ 62 <= limit < 2 ^ 62 ->
  exists result,
    LogManager.get_logs_by_user username limit db = (Returns result, db)
    /\ (forall e, In e result ->
                  In e (rows (logs db)) /\ Log.user e = username)
    /\ StronglySorted timestamp_descending result
    /\ (limit < 0 \/ Z.of_nat (List.length result) <= limit).
Proof.
  intros Hlimit.
  destruct (filtered_logs_sound (fun log => Log.user log =? username)%string
              limit db Hlimit) as (result & Hrun & Hin & Hsorted & Hlen).
  exists result. split; [exact Hrun|]. split; [|split; assumption].
  intros e He. destruct (Hin e He) as [Hrow Hu].
  apply String.eqb_eq in Hu. auto.
Qed.

Lemma get_logs_by_user_sound_witness :
  - 2 ^ 62 <= -1 < 2 ^ 62
  /\ exists result,
       LogManager.get_logs_by_user "alice" (-1) Sample.audit
       = (Returns result, Sample.audit)
       /\ (forall e, In e result ->
                     In e (rows (logs Sample.audit))
                     /\ Log.user e = "alice"%string)
       /\ StronglySorted timestamp_descending result
       /\ (-1 < 0 \/ Z.of_nat (List.length result) <= -1).
Proof.
  assert (H : - 2 ^ 62 <= -1 < 2 ^ 62) by lia.
  split; [exact H|].
  exact (get_logs_by_user_sound Sample.audit "alice" (-1) H).
Defined.

(** X14: for a limit from [-2^62] up to, not including, [2^62],
    [get_logs_by_action] does not raise and does not write; every entry
    it returns is a stored entry whose action, put in lower case by
    [str.lower], contains the term put in lower case, they come by
    descending timestamp, and a limit that is not negative bounds their
    number. *)
Theorem get_logs_by_action_sound (lower : string -> string)
  (db : database) (action : string) (limit : Z) :
  - 2 ^ 62 <= limit < 2 ^ 62 ->
  exists result,
    LogManager.get_logs_by_action lower action limit db
    = (Returns result, db)
    /\ (forall e, In e result ->
                  In e (rows (logs db))
                  /\ Str.occurs_in (lower action) (lower (Log.action e)))
    /\ StronglySorted timestamp_descending result
    /\ (limit < 0 \/ Z.of_nat (List.length result) <= limit).
Proof.
  intros Hlimit.
  destruct (filtered_logs_sound
              (fun log => Str.contains (lower action)
                            (lower (Log.action log)))
              limit db Hlimit) as (result & Hrun & Hin & Hsorted & Hlen).
  exists result. split; [exact Hrun|]. split; [|split; assumption].
  intros e He. destruct (Hin e He) as [Hrow Hu].
  apply contains_spec in Hu. auto.
Qed.

Lemma get_logs_by_action_sound_witness :
  - 2 ^ 62 <= 5 < 2 ^ 62
  /\ exists result,
       LogManager.get_logs_by_action Str.lower "log" 5 Sample.audit
       = (Returns result, Sample.audit)
       /\ (forall e, In e result ->
                     In e (rows (logs Sample.audit))
                     /\ Str.occurs_in (Str.lower "log")
                          (Str.lower (Log.action e)))
       /\ StronglySorted timestamp_descending result
       /\ (5 < 0 \/ Z.of_nat (List.length result) <= 5).
Proof.
  assert (H : - 2 ^ 62 <= 5 < 2 ^ 62) by lia.
  split; [exact H|].
  exact (get_logs_by_action_sound Str.lower Sample.audit "log" 5 H).
Defined.

(** X15: for a limit [L] with [0 <= L < 2^62], when the log holds at
    most [2 * L] entries and at most [L] of them are of the user,
    [get_logs_by_user] is exact: it returns every entry of that user,
    by descending timestamp. *)
Theorem get_logs_by_user_exact (db : database) (username : string)
  (L : Z) :
  0 <= L < 2 ^ 62 ->
  Z.of_nat (List.length (rows (logs db))) <= 2 * L ->
  Z.of_nat (List.length (filter (fun e => Log.user e =? username)%string
                                (rows (logs db)))) <= L ->
  exists result,
    LogManager.get_logs_by_user username L db = (Returns result, db)
    /\ Permutation result
         (filter (fun e => Log.user e =? username)%string (rows (logs db)))
    /\ StronglySorted timestamp_descending result.
Proof.
  intros HL Hall Huser.
  pose proof (order_by_Permutation SQL.by_timestamp_desc (rows (logs db)))
    as Hperm.
  exists (filter (fun e => Log.user e =? username)%string
            (Engine.order_by SQL.by_timestamp_desc (rows (logs db)))).
  split; [|split].
  - unfold LogManager.get_logs_by_user.
    rewrite (filtered_logs (fun e => Log.user e =? username)%string L db HL).
    rewrite (firstn_all2 (n := Z.to_nat (2 * L))
               (Engine.order_by SQL.by_timestamp_desc (rows (logs db))))
      by (rewrite (Permutation_length Hperm); lia).
    rewrite firstn_all2; [reflexivity|].
    rewrite (Permutation_length (filter_Permutation _ _ _ Hperm)). lia.
  - apply filter_Permutation, Hperm.
  - apply StronglySorted_filter, order_by_timestamp_sorted.
Qed.

Lemma get_logs_by_user_exact_witness :
  0 <= 100 < 2 ^ 62
  /\ Z.of_nat (List.length (rows (logs Sample.audit))) <= 2 * 100
  /\ Z.of_nat (List.length (filter (fun e => Log.user e =? "alice")%string
                                   (rows (logs Sample.audit)))) <= 100
  /\ exists result,
       LogManager.get_logs_by_user "alice" 100 Sample.audit
       = (Returns result, Sample.audit)
       /\ Permutation result
            (filter (fun e => Log.user e =? "alice")%string
                    (rows (logs Sample.audit)))
       /\ StronglySorted timestamp_descending result.
Proof.
  assert (H0 : 0 <= 100 < 2 ^ 62) by lia.
  assert (H1 : Z.of_nat (List.length (rows (logs Sample.audit)))
               <= 2 * 100)
    by (vm_compute; intro Hgt; discriminate Hgt).
  assert (H2 : Z.of_nat
                 (List.length (filter (fun e => Log.user e =? "alice")%string
                                      (rows (logs Sample.audit)))) <= 100)
    by (vm_compute; intro Hgt; discriminate Hgt).
  split; [exact H0|]. split; [exact H1|]. split; [exact H2|].
  exact (get_logs_by_user_exact Sample.audit "alice" 100 H0 H1 H2).
Defined.

(** X16: the empty action matches every entry: for a limit [L] with
    [0 <= L < 2^62], [get_logs_by_action] with the empty text, which
    [str.lower] keeps empty, returns what [get_recent_logs L] returns. *)
Theorem get_logs_by_action_empty (lower : string -> string)
  (db : database) (L : Z) :
  lower "" = ""%string ->
  0 <= L < 2 ^ 62 ->
  LogManager.get_logs_by_action lower "" L db
  = LogManager.get_recent_logs L db.
Proof.
  intros Hempty HL. unfold LogManager.get_logs_by_action.
  rewrite (filtered_logs _ L db HL), Hempty.
  rewrite filter_all
    by (intros e; destruct (lower (Log.action e)); reflexivity).
  unfold LogManager.get_recent_logs. rewrite get_logs_run.
  assert (Hint : int64 L = true) by (apply int64_spec; lia).
  rewrite Hint, firstn_firstn. unfold Engine.limit.
  destruct (Z.ltb_spec L 0); [lia|].
  replace (Nat.min (Z.to_nat L) (Z.to_nat (2 * L))) with (Z.to_nat L)
    by lia.
  reflexivity.
Qed.

Lemma get_logs_by_action_empty_witness :
  Str.lower "" = ""%string
  /\ 0 <= 2 < 2 ^ 62
  /\ LogManager.get_logs_by_action Str.lower "" 2 Sample.audit
     = LogManager.get_recent_logs 2 Sample.audit.
Proof.
  assert (H : 0 <= 2 < 2 ^ 62) by lia.
  split; [reflexivity|]. split; [exact H|].
  exact (get_logs_by_action_empty Str.lower Sample.audit 2 eq_refl H).
Defined.

(** ** Product creation: outcomes and composition *)




(** X19: after a call that returned an id, any further call with the
    same SKU, whatever its other arguments, returns [None] and writes
    nothing. *)
Theorem add_product_twice (db db' : database) (sku name : string)
  (price : number) (category : string) (stock : Z)
  (description user : string) (clk : clock) (id : Z) :
  ProductManager.add_product sku name price category stock description
    user clk db
  = (Returns (Some id), db') ->
  forall (name' : string) (price' : number) (category' : string)
    (stock' : Z) (description' user' : string) (clk' : clock),
    ProductManager.add_product sku name' price' category' stock'
      description' user' clk' db'
    = (Returns None, db').
Proof.
  intros Hrun name' price' category' stock' description' user' clk'.
  destruct (add_product_returns_id _ _ _ _ _ _ _ _ _ _ _ Hrun)
    as (_ & _ & _ & real & _ & Hdef).
  unfold appended in Hdef. injection Hdef as _ ->.
  apply add_product_taken. eexists. cbn [products rows].
  split; [apply in_or_app; right; left; reflexivity | reflexivity].
Qed.

Lemma add_product_twice_witness :
  ProductManager.add_product "LAPTOP001" "Laptop 1"
    (Floating (99999 # 100)) "Electronics" 10 "" "system"
    (Sample.at_second "01") Sample.fresh
  = (Returns (Some 1),
     after (Add_product "LAPTOP001" "Laptop 1" (Floating (99999 # 100))
              "Electronics" 10 "" "system" (Sample.at_second "01"))
       Sample.fresh)
  /\ forall (name' : string) (price' : number) (category' : string)
       (stock' : Z) (description' user' : string) (clk' : clock),
       ProductManager.add_product "LAPTOP001" name' price' category'
         stock' description' user' clk'
         (after (Add_product "LAPTOP001" "Laptop 1"
                   (Floating (99999 # 100)) "Electronics" 10 "" "system"
                   (Sample.at_second "01"))
            Sample.fresh)
       = (Returns None,
          after (Add_product "LAPTOP001" "Laptop 1"
                   (Floating (99999 # 100)) "Electronics" 10 "" "system"
                   (Sample.at_second "01"))
            Sample.fresh).
Proof.
  assert (H : ProductManager.add_product "LAPTOP001" "Laptop 1"
                (Floating (99999 # 100)) "Electronics" 10 "" "system"
                (Sample.at_second "01") Sample.fresh
              = (Returns (Some 1),
                 after (Add_product "LAPTOP001" "Laptop 1"
                          (Floating (99999 # 100)) "Electronics" 10 ""
                          "system" (Sample.at_second "01"))
                   Sample.fresh))
    by (vm_compute; reflexivity).
  split; [exact H|].
  exact (add_product_twice _ _ _ _ _ _ _ _ _ _ _ H).
Defined.



(** ** What every request keeps *)

Section Requests.

(** A reading method leaves the store as it is, whether it returns or
    raises. *)
Lemma execute_query_keeps {R : Type} (query : SQL.query R)
  (params : list param) (db : database) :
  snd (StorageManager.execute_query query params db) = db.
Proof.
  unfold StorageManager.execute_query.
  destruct (forallb binds params); [|reflexivity].
  destruct (query db); reflexivity.
Qed.

Lemma bind_ret_keeps {A B : Type} (m : M A) (f : A -> B) (db : database) :
  snd (m db) = db -> snd ((x <- m ;; ret (f x)) db) = db.
Proof.
  unfold bind, ret. destruct (m db) as [[a|e] d]; exact (fun H => H).
Qed.

Lemma insert_product_effect (db : database) (sku name : string)
  (price : number) (category : string) (stock : Z)
  (description now : string) :
  let db' := snd (StorageManager.add_product sku name price category stock
                    description now db) in
  db' = db
  \/ ((forall r, In r (rows (products db)) -> Product.sku r <> sku)
      /\ exists id real,
           id = Engine.next_rowid (map Product.id (rows (products db)))
                  (sequence (products db))
           /\ db' =
              SQL.set_products
                (Table (rows (products db)
                        ++ [Product.Row id sku name real (Some category)
                              stock (Some description) (Some now)
                              (Some now)]) id) db).
Proof.
  cbv zeta. rewrite storage_add_product_run.
  destruct (binds (Num price) && int64 stock); [|left; reflexivity].
  destruct (Number.stored price) as [real|]; [|left; reflexivity].
  destruct (existsb _ _) eqn:E; [left; reflexivity|]. right. split.
  - intros r Hin Hr.
    assert (Ht : existsb (fun r => Product.sku r =? sku)%string
                   (rows (products db)) = true).
    { apply existsb_exists. exists r. split; [exact Hin|].
      apply String.eqb_eq, Hr. }
    congruence.
  - eexists _, real. split; reflexivity.
Qed.

(** What a call of [ProductManager.add_product] leaves: the store as it
    was, or the store with one product row and one log entry
    appended. *)
Lemma add_product_effect (db : database) (sku name : string)
  (price : number) (category : string) (stock : Z)
  (description user : string) (clk : clock) :
  let db' := after (Add_product sku name price category stock description
                      user clk) db in
  db' = db
  \/ ((forall r, In r (rows (products db)) -> Product.sku r <> sku)
      /\ exists id lid real,
           id = Engine.next_rowid (map Product.id (rows (products db)))
                  (sequence (products db))
           /\ lid = Engine.next_rowid (map Log.id (rows (logs db)))
                      (sequence (logs db))
           /\ db' =
              Database (users db)
                (Table (rows (products db)
                        ++ [Product.Row id sku name real (Some category)
                              stock (Some description)
                              (Some (current_timestamp clk))
                              (Some (current_timestamp clk))]) id)
                (suppliers db) (sales_orders db) (purchase_orders db)
                (Table (rows (logs db)
                        ++ [Log.Row lid user (Some (datetime_now clk))
                              "ADD_PRODUCT"
                              (Some ("Added product: " ++ name ++ " (SKU: "
                                     ++ sku ++ ")")%string)]) lid)).
Proof.
  cbv zeta. cbn [after].
  destruct (add_product_cases db sku name price category stock description
              user clk) as [H | (Hfree & _ & _ & real & _ & ->)];
    [left; exact H|].
  right. split; [exact Hfree|].
  eexists _, _, real. split; [reflexivity|]. split; reflexivity.
Qed.

(** The requests that only read. *)
Lemma perform_reads (lower : string -> string) (q : request)
  (db : database) :
  match q with
  | Storage_add_product _ _ _ _ _ _ _ | Storage_add_log _ _ _ _
  | Log_action _ _ _ _ | Manager (Add_product _ _ _ _ _ _ _ _) => True
  | _ => perform lower q db = db
  end.
Proof.
  destruct q as [sku name price category stock description now
                | | pid | sku | term
                | user action details now | limit
                | user action details now | limit | u limit | a limit
                | c]; try exact I; cbn [perform].
  - apply execute_query_keeps.
  - apply (bind_ret_keeps _ (@hd_error Product.row)), execute_query_keeps.
  - apply (bind_ret_keeps _ (@hd_error Product.row)), execute_query_keeps.
  - apply execute_query_keeps.
  - apply execute_query_keeps.
  - apply execute_query_keeps.
  - apply (bind_ret_keeps _
             (fun all_logs =>
                slice_to limit
                  (filter (fun log => Log.user log =? u)%string all_logs))),
      execute_query_keeps.
  - apply (bind_ret_keeps _
             (fun all_logs =>
                slice_to limit
                  (filter (fun log =>
                             Str.contains (lower a) (lower (Log.action log)))
                          all_logs))),
      execute_query_keeps.
  - destruct c as [sku name price category stock description user clk
                  | | pid | term]; [exact I | | |]; cbn [after].
    + apply execute_query_keeps.
    + apply (bind_ret_keeps _ (@hd_error Product.row)),
        execute_query_keeps.
    + apply execute_query_keeps.
Qed.

Lemma keyed_snoc {R : Type} (id : R -> Z) (l : list R) (seq : Z) (r : R) :
  keyed id (Table l seq) ->
  id r = Engine.next_rowid (map id l) seq ->
  keyed id (Table (l ++ [r]) (id r)).
Proof.
  unfold keyed. cbn [rows sequence]. intros [Hnd Hle] Hr.
  destruct (next_rowid_fresh (map id l) seq) as (Hlt & _ & _).
  rewrite <- Hr, Forall_map in Hlt. split.
  - rewrite map_app. cbn [map].
    apply (Permutation_NoDup (Permutation_cons_append _ _)).
    constructor; [|exact Hnd].
    intros Hin. apply in_map_iff in Hin. destruct Hin as (y & Hy & Hin).
    rewrite Forall_forall in Hlt. specialize (Hlt y Hin). cbv beta in Hlt.
    lia.
  - apply Forall_app. split; [|constructor; [lia | constructor]].
    eapply Forall_impl; [|exact Hlt]. cbv beta. intros. lia.
Qed.

Lemma NoDup_sku_snoc (l : list Product.row) (r : Product.row) :
  NoDup (map Product.sku l) ->
  (forall y, In y l -> Product.sku y <> Product.sku r) ->
  NoDup (map Product.sku (l ++ [r])).
Proof.
  intros Hnd Hfree. rewrite map_app. cbn [map].
  apply (Permutation_NoDup (Permutation_cons_append _ _)).
  constructor; [|exact Hnd].
  intros Hin. apply in_map_iff in Hin. destruct Hin as (y & Hy & Hin).
  exact (Hfree y Hin Hy).
Qed.

Lemma table_eta {R : Type} (t : table R) : Table (rows t) (sequence t) = t.
Proof. destruct t. reflexivity. Qed.

Lemma invariant_insert_product (db : database) (r : Product.row) :
  store_invariant db ->
  (forall y, In y (rows (products db)) -> Product.sku y <> Product.sku r) ->
  Product.id r = Engine.next_rowid (map Product.id (rows (products db)))
                   (sequence (products db)) ->
  store_invariant
    (SQL.set_products (Table (rows (products db) ++ [r]) (Product.id r)) db).
Proof.
  intros (Hsku & Hkp & Hkl & Hu & H1 & H2 & H3) Hfree Hid.
  unfold store_invariant. cbn.
  repeat split; try assumption.
  - apply NoDup_sku_snoc; assumption.
  - rewrite <- (table_eta (products db)) in Hkp.
    destruct (keyed_snoc _ _ _ r Hkp Hid) as [H _]. exact H.
  - rewrite <- (table_eta (products db)) in Hkp.
    destruct (keyed_snoc _ _ _ r Hkp Hid) as [_ H]. exact H.
  - apply Hkl.
  - apply Hkl.
Qed.

Lemma invariant_insert_log (db : database) (e : Log.row) :
  store_invariant db ->
  Log.id e = Engine.next_rowid (map Log.id (rows (logs db)))
               (sequence (logs db)) ->
  store_invariant
    (SQL.set_logs (Table (rows (logs db) ++ [e]) (Log.id e)) db).
Proof.
  intros (Hsku & Hkp & Hkl & Hu & H1 & H2 & H3) Hid.
  unfold store_invariant. cbn.
  repeat split; try assumption.
  - apply Hkp.
  - apply Hkp.
  - rewrite <- (table_eta (logs db)) in Hkl.
    destruct (keyed_snoc _ _ _ e Hkl Hid) as [H _]. exact H.
  - rewrite <- (table_eta (logs db)) in Hkl.
    destruct (keyed_snoc _ _ _ e Hkl Hid) as [_ H]. exact H.
Qed.

Lemma invariant_perform (lower : string -> string) (q : request)
  (db : database) :
  store_invariant db -> store_invariant (perform lower q db).
Proof.
  intros Hinv. pose proof (perform_reads lower q db) as Hread.
  destruct q as [sku name price category stock description now
                | | pid | sku | term
                | user action details now | limit
                | user action details now | limit | u limit | a limit
                | c];
    try (rewrite Hread; exact Hinv).
  - cbn [perform].
    destruct (insert_product_effect db sku name price category stock
                description now) as [-> | (Hfree & id & real & Hid & ->)];
      [exact Hinv|].
    apply (invariant_insert_product db
             (Product.Row id sku name real (Some category) stock
                (Some description) (Some now) (Some now)));
      [exact Hinv | exact Hfree | exact Hid].
  - apply (invariant_insert_log db
             (Log.Row (Engine.next_rowid (map Log.id (rows (logs db)))
                         (sequence (logs db)))
                user (Some now) action (Some details)));
      [exact Hinv | reflexivity].
  - apply (invariant_insert_log db
             (Log.Row (Engine.next_rowid (map Log.id (rows (logs db)))
                         (sequence (logs db)))
                user (Some now) action (Some details)));
      [exact Hinv | reflexivity].
  - destruct c as [sku name price category stock description user clk
                  | | pid | term]; try (rewrite Hread; exact Hinv).
    cbn [perform].
    destruct (add_product_effect db sku name price category stock
                description user clk)
      as [-> | (Hfree & id & lid & real & Hid & Hlid & ->)];
      [exact Hinv|].
    pose proof (invariant_insert_product db
                  (Product.Row id sku name real (Some category) stock
                     (Some description) (Some (current_timestamp clk))
                     (Some (current_timestamp clk))) Hinv Hfree Hid) as Hp.
    exact (invariant_insert_log _
             (Log.Row lid user (Some (datetime_now clk)) "ADD_PRODUCT"
                (Some ("Added product: " ++ name ++ " (SKU: " ++ sku ++ ")")%string))
             Hp Hlid).
Qed.

Lemma invariant_fresh (now : string) :
  store_invariant (snd (StorageManager.__init__ None now)).
Proof.
  unfold store_invariant. cbn -[SHA256.hexdigest].
  repeat split; try constructor.
  exists now. reflexivity.
Qed.

End Requests.

(** X21: no request updates or deletes a row, a request being a call of
    a product or log method of the three classes, which leaves out
    [execute_query], [execute_update] and [get_connection], made to run
    the SQL of the caller.  After any request, whether it returns or
    raises, the users, suppliers, sales orders and purchase orders
    tables are as before, and the products and the logs hold the rows
    they held, in the same order, followed by at most one new row
    each. *)
Theorem requests_append_only (lower : string -> string) (q : request)
  (db : database) :
  let db' := perform lower q db in
  users db' = users db
  /\ suppliers db' = suppliers db
  /\ sales_orders db' = sales_orders db
  /\ purchase_orders db' = purchase_orders db
  /\ (exists new, rows (products db') = (rows (products db) ++ new)%list
                  /\ (List.length new <= 1)%nat)
  /\ (exists new, rows (logs db') = (rows (logs db) ++ new)%list
                  /\ (List.length new <= 1)%nat).
Proof.
  cbv zeta.
  assert (Hsame : forall d, d = db ->
            users d = users db /\ suppliers d = suppliers db
            /\ sales_orders d = sales_orders db
            /\ purchase_orders d = purchase_orders db
            /\ (exists new, rows (products d) = (rows (products db) ++ new)%list
                            /\ (List.length new <= 1)%nat)
            /\ (exists new, rows (logs d) = (rows (logs db) ++ new)%list
                            /\ (List.length new <= 1)%nat)).
  { intros d ->. repeat (split; [reflexivity|]).
    split; exists []; rewrite app_nil_r; split; auto. }
  pose proof (perform_reads lower q db) as Hread.
  destruct q as [sku name price category stock description now
                | | pid | sku | term
                | user action details now | limit
                | user action details now | limit | u limit | a limit
                | c];
    try (apply Hsame; exact Hread).
  - cbn [perform].
    destruct (insert_product_effect db sku name price category stock
                description now) as [H | (_ & id & real & _ & ->)];
      [apply Hsame, H|].
    cbn. repeat (split; [reflexivity|]).
    split; [eexists; split; [reflexivity | simpl; lia]|].
    exists []. rewrite app_nil_r. split; auto.
  - cbn. repeat (split; [reflexivity|]).
    split; [exists []; rewrite app_nil_r; split; auto|].
    eexists; split; [reflexivity | simpl; lia].
  - cbn. repeat (split; [reflexivity|]).
    split; [exists []; rewrite app_nil_r; split; auto|].
    eexists; split; [reflexivity | simpl; lia].
  - destruct c as [sku name price category stock description user clk
                  | | pid | term]; try (apply Hsame; exact Hread).
    cbn [perform].
    destruct (add_product_effect db sku name price category stock
                description user clk)
      as [H | (_ & id & lid & real & _ & _ & ->)]; [apply Hsame, H|].
    cbn. repeat (split; [reflexivity|]).
    split; eexists; split; try reflexivity; simpl; lia.
Qed.

(** X22: in every store reached from a new one by requests, that is by
    calls of the product and log methods of the three classes,
    storage-level insertions included and [execute_query],
    [execute_update] and [get_connection] left out, SKUs are pairwise
    distinct, the ids of products and of log entries are pairwise
    distinct and bounded by the AUTOINCREMENT counter, the users table
    holds the seeded administrator alone, and the suppliers, sales
    orders and purchase orders tables are empty. *)
Theorem served_store_invariant (lower : string -> string)
  (db : database) :
  served lower db -> store_invariant db.
Proof.
  induction 1 as [now | q db Hserved IH].
  - apply invariant_fresh.
  - apply invariant_perform, IH.
Qed.

Lemma served_store_invariant_witness :
  served Str.lower
    (perform Str.lower
       (Storage_add_product "RETURN01" "Refund" (Floating (-5 # 2)) "Misc"
          (-3) "" "2025-10-31 12:00:09") Sample.shop)
  /\ store_invariant
       (perform Str.lower
          (Storage_add_product "RETURN01" "Refund" (Floating (-5 # 2))
             "Misc" (-3) "" "2025-10-31 12:00:09") Sample.shop).
Proof.
  assert (H : served Str.lower
                (perform Str.lower
                   (Storage_add_product "RETURN01" "Refund"
                      (Floating (-5 # 2)) "Misc" (-3) ""
                      "2025-10-31 12:00:09") Sample.shop)).
  { apply served_request.
    apply (served_request Str.lower
             (Manager (Add_product "CHAIR001" "Office Chair"
                (Floating (19999 # 100)) "Furniture" 20 "" "system"
                (Sample.at_second "03")))).
    apply (served_request Str.lower
             (Manager (Add_product "LAPTOP002" "Business Laptop"
                (Floating (99999 # 100)) "Electronics" 15 "" "system"
                (Sample.at_second "02")))).
    apply (served_request Str.lower
             (Manager (Add_product "LAPTOP001" "Gaming Laptop"
                (Floating (129999 # 100)) "Electronics" 10 "" "system"
                (Sample.at_second "01")))).
    apply served_fresh. }
  split; [exact H | exact (served_store_invariant Str.lower _ H)].
Defined.

(** ** The audit trail of the product manager *)

Section AuditTrail.






End AuditTrail.



(** ** Rendering of log entries *)

Section Rendering.

Local Open Scope string_scope.

Lemma dict_get_missing (d : dict) (key : string) (default : value) :
  has_key d key = false -> dict_get d key default = default.
Proof.
  induction d as [|[k v] d IH]; simpl; [reflexivity|].
  destruct (k =? key); [discriminate | exact IH].
Qed.

Lemma occurs_in_concat (x : string) (l : list string) :
  In x l -> Str.occurs_in x (String.concat "" l).
Proof.
  induction l as [|y l IH]; intros Hin; [destruct Hin|].
  assert (Hc : String.concat "" (y :: l) = y ++ String.concat "" l).
  { destruct l; simpl; [rewrite append_nil_r|]; reflexivity. }
  rewrite Hc. destruct Hin as [-> | Hin].
  - exists "", (String.concat "" l). reflexivity.
  - destruct (IH Hin) as (pre & post & ->).
    exists (y ++ pre), post. rewrite append_assoc. reflexivity.
Qed.

Lemma occurs_in_prepend (x s pre : string) :
  Str.occurs_in x s -> Str.occurs_in x (pre ++ s).
Proof.
  intros (a & b & ->). exists (pre ++ a), b.
  rewrite !append_assoc. reflexivity.
Qed.

Lemma occurs_in_append (x s post : string) :
  Str.occurs_in x s -> Str.occurs_in x (s ++ post).
Proof.
  intros (a & b & ->). exists a, (b ++ post).
  rewrite !append_assoc. reflexivity.
Qed.

End Rendering.

(** X24: the rendering of a row of the logs table: the timestamp in
    brackets, the user, the action, and the details after a dash only
    when they are neither NULL nor empty; a NULL timestamp is rendered
    as the text None. *)
Theorem format_log_entry_row (r : Log.row) :
  let timestamp :=
    match Log.timestamp r with Some t => t | None => "None"%string end in
  LogManager.format_log_entry (LogManager.dict_of_row r)
  = match Log.details r with
    | Some (String c d) =>
        ("[" ++ timestamp ++ "] " ++ Log.user r ++ ": " ++ Log.action r
         ++ " - " ++ String c d)%string
    | _ =>
        ("[" ++ timestamp ++ "] " ++ Log.user r ++ ": " ++ Log.action r)%string
    end.
Proof.
  destruct r as [id user [ts|] action [[|c d]|]]; reflexivity.
Qed.

(** X25: a dictionary without the keys timestamp, user, action and
    details, whatever else it holds, is rendered with the placeholder
    in the three places and without details. *)
Theorem format_log_entry_missing (log : dict) :
  has_key log "timestamp" = false ->
  has_key log "user" = false ->
  has_key log "action" = false ->
  has_key log "details" = false ->
  LogManager.format_log_entry log = "[N/A] N/A: N/A"%string.
Proof.
  intros Ht Hu Ha Hd. unfold LogManager.format_log_entry.
  rewrite !dict_get_missing by assumption. reflexivity.
Qed.

Lemma format_log_entry_missing_witness :
  has_key [("id", PyInt 7); ("level", PyStr "info")]%string "timestamp"
  = false
  /\ has_key [("id", PyInt 7); ("level", PyStr "info")]%string "user"
     = false
  /\ has_key [("id", PyInt 7); ("level", PyStr "info")]%string "action"
     = false
  /\ has_key [("id", PyInt 7); ("level", PyStr "info")]%string "details"
     = false
  /\ LogManager.format_log_entry
       [("id", PyInt 7); ("level", PyStr "info")]%string
     = "[N/A] N/A: N/A"%string.
Proof.
  repeat (split; [reflexivity|]).
  exact (format_log_entry_missing
           [("id", PyInt 7); ("level", PyStr "info")]%string
           eq_refl eq_refl eq_refl eq_refl).
Defined.

(** X26: [display_logs] prints the notice "No logs found." exactly when
    the list is empty; otherwise the formatted line of every entry of
    the list is in what it prints. *)
Theorem display_logs_output (logs : list dict) :
  (LogManager.display_logs logs = print "No logs found." <-> logs = [])
  /\ forall log, In log logs ->
       Str.occurs_in (print (LogManager.format_log_entry log))
                     (LogManager.display_logs logs).
Proof.
  split.
  - split; [|intros ->; reflexivity].
    destruct logs as [|l logs]; [reflexivity|]. intros H.
    vm_compute in H. discriminate H.
  - intros log Hin. destruct logs as [|l logs]; [destruct Hin|].
    unfold LogManager.display_logs.
    set (lines := map (fun log => print (LogManager.format_log_entry log))
                      (l :: logs)).
    assert (Hline : In (print (LogManager.format_log_entry log)) lines)
      by (exact (in_map (fun log => print (LogManager.format_log_entry log))
                   _ _ Hin)).
    apply occurs_in_concat in Hline.
    do 3 apply occurs_in_prepend. apply occurs_in_append. exact Hline.
Qed.

(** X27: the audit entry of a product creation, rendered: a call of
    [add_product] that returned an id appended a log entry that is
    rendered as the clock reading in brackets, the user, ADD_PRODUCT,
    and the details naming the product and its SKU; and when every
    timestamp already in the log sorts strictly before that reading,
    this entry is the one [get_recent_logs 1] returns after the call. *)
Theorem add_product_rendered (db db' : database) (sku name : string)
  (price : number) (category : string) (stock : Z)
  (description user : string) (clk : clock) (id : Z) :
  ProductManager.add_product sku name price category stock description
    user clk db
  = (Returns (Some id), db') ->
  exists e,
    rows (logs db') = (rows (logs db) ++ [e])%list
    /\ LogManager.format_log_entry (LogManager.dict_of_row e)
       = ("[" ++ datetime_now clk ++ "] " ++ user
          ++ ": ADD_PRODUCT - Added product: " ++ name
          ++ " (SKU: " ++ sku ++ ")")%string
    /\ (Forall (earlier_than (datetime_now clk)) (rows (logs db)) ->
        LogManager.get_recent_logs 1 db' = (Returns [e], db')).
Proof.
  intros Hrun.
  destruct (add_product_returns_id _ _ _ _ _ _ _ _ _ _ _ Hrun)
    as (_ & _ & _ & real & _ & Hdef).
  unfold appended in Hdef. injection Hdef as _ ->.
  eexists. cbn [logs rows]. split; [reflexivity|]. split; [reflexivity|].
  intros Hearlier. unfold LogManager.get_recent_logs.
  rewrite get_logs_run. change (int64 1) with true. cbv iota.
  cbn [logs rows]. rewrite order_by_snoc_first; [reflexivity|].
  exact Hearlier.
Qed.

Lemma add_product_rendered_witness :
  ProductManager.add_product "PROD001" "Test Product"
    (Floating (9999 # 100)) "Test" 10 "" "testuser"
    (Sample.at_second "04") Sample.audit
  = (Returns (Some 1),
     after (Add_product "PROD001" "Test Product" (Floating (9999 # 100))
              "Test" 10 "" "testuser" (Sample.at_second "04"))
       Sample.audit)
  /\ exists e,
       rows (logs (after (Add_product "PROD001" "Test Product"
                            (Floating (9999 # 100)) "Test" 10 ""
                            "testuser" (Sample.at_second "04"))
                     Sample.audit))
       = (rows (logs Sample.audit) ++ [e])%list
       /\ LogManager.format_log_entry (LogManager.dict_of_row e)
          = ("[" ++ datetime_now (Sample.at_second "04") ++ "] "
             ++ "testuser" ++ ": ADD_PRODUCT - Added product: "
             ++ "Test Product" ++ " (SKU: " ++ "PROD001" ++ ")")%string
       /\ (Forall (earlier_than (datetime_now (Sample.at_second "04")))
                  (rows (logs Sample.audit)) ->
           LogManager.get_recent_logs 1
             (after (Add_product "PROD001" "Test Product"
                       (Floating (9999 # 100)) "Test" 10 "" "testuser"
                       (Sample.at_second "04"))
                Sample.audit)
           = (Returns [e],
              after (Add_product "PROD001" "Test Product"
                       (Floating (9999 # 100)) "Test" 10 "" "testuser"
                       (Sample.at_second "04"))
                Sample.audit)).
Proof.
  assert (H : ProductManager.add_product "PROD001" "Test Product"
                (Floating (9999 # 100)) "Test" 10 "" "testuser"
                (Sample.at_second "04") Sample.audit
              = (Returns (Some 1),
                 after (Add_product "PROD001" "Test Product"
                          (Floating (9999 # 100)) "Test" 10 "" "testuser"
                          (Sample.at_second "04"))
                   Sample.audit))
    by (vm_compute; reflexivity).
  split; [exact H|].
  exact (add_product_rendered _ _ _ _ _ _ _ _ _ _ _ H).
Defined.

Example display_logs_audit :
  Str.occurs_in
    "[2025-10-31T12:00:02.000100] bob: LOGOUT - Logged out"
    (LogManager.display_logs
       (map LogManager.dict_of_row (rows (logs Sample.audit)))).
Proof. apply contains_spec. vm_compute. reflexivity. Qed.

(** ** Initialisation of an existing file *)

